(** * prompt_ops.core.utils.progress : ProgressTracker and track_progress

    A shallow embedding of [src/prompt_ops/core/utils/progress.py].

    The tracker is a record, [update] and [_display] are functions that return
    the new tracker together with what was written to [sys.stdout], and the
    reading of [time.time()] that each call makes is an explicit argument.
    The Python operations the code uses on unbounded integers and on floats
    ([/], [*], [-], [int()], [str * int], the [.0f] and [.1f] formats) are
    embedded in [Module Py] with the errors CPython raises for them, so that
    "does not raise" is a statement with content.  Two limits of CPython 3.11
    on a 64-bit build are among them: the count of a repeated string must
    fit a machine index, and an integer of more than 4300 digits is not
    formatted.  That the machine has the memory for a string within those
    limits, and that the stream can encode it, is taken for granted. *)

From Stdlib Require Import ZArith List String Ascii Bool Lia.
From Stdlib Require Import SpecFloat DecimalString.
Import ListNotations.

Open Scope string_scope.
Open Scope Z_scope.

(** ** The Python operations used by the module *)

Module Py.

(** Exceptions.  [Exception what] stands for whatever the caller's own code
    raises. *)
Inductive exn : Type :=
| ZeroDivisionError
| OverflowError
| ValueError
| MemoryError
| Exception (what : string).

Inductive result (A : Type) : Type :=
| Ok (a : A)
| Raise (e : exn).

Arguments Ok {A} a.
Arguments Raise {A} e.

Definition bind {A B : Type} (r : result A) (k : A -> result B) : result B :=
  match r with
  | Ok a => k a
  | Raise e => Raise e
  end.

Definition raises {A : Type} (r : result A) : bool :=
  match r with
  | Ok _ => false
  | Raise _ => true
  end.

(** *** Floats: IEEE 754 binary64, as [SpecFloat] describes them *)

Definition float : Type := spec_float.

Definition prec : Z := 53.
Definition emax : Z := 1024.

(** An integer, or a quotient of integers, whose magnitude is at least
    [2^1024 - 2^970] rounds to [2^1024], which is not a float: CPython
    raises [OverflowError] there ("int too large to convert to float",
    "integer division result too large for a float"). *)
Definition DBL_OVF : Z := 2 ^ 1024 - 2 ^ 970.

Definition overflows (a b : Z) : bool := DBL_OVF * Z.abs b <=? Z.abs a.

(** Nearest integer to [n / d], ties to even ([0 < d]). *)
Definition round_half_even_div (n d : Z) : Z :=
  let q := n / d in
  match 2 * (n mod d) ?= d with
  | Lt => q
  | Gt => q + 1
  | Eq => if Z.even q then q else q + 1
  end.

(** [floor (log2 (a / b))] for [0 < a] and [0 < b]. *)
Definition floor_log2_ratio (a b : Z) : Z :=
  let k := Z.log2 a - Z.log2 b in
  if b * 2 ^ Z.max k 0 <=? a * 2 ^ Z.max (- k) 0 then k else k - 1.

(** The binary64 number nearest to [a / b] ([0 <= a], [0 < b]), as a
    significand [m] and an exponent [e], the value being [m * 2^e]: 53
    significant bits, fewer below [2^-1022]. *)
Definition nearest_binary64 (a b : Z) : Z * Z :=
  let e := Z.max (floor_log2_ratio a b - 52) (- 1074) in
  (round_half_even_div (a * 2 ^ Z.max (- e) 0) (b * 2 ^ Z.max e 0), e).

Definition mk_float (s : bool) (me : Z * Z) : float :=
  let '(m, e) := me in
  match m with
  | Zpos p =>
      if m =? 2 ^ 53 then S754_finite s (Z.to_pos (2 ^ 52)) (e + 1)
      else S754_finite s p e
  | _ => S754_zero s
  end.

(** [float(z)], the conversion Python applies to the integer operand of a
    mixed [float]/[int] operation. *)
Definition float_of_int (z : Z) : result float :=
  if overflows z 1 then Raise OverflowError
  else Ok (mk_float (z <? 0) (nearest_binary64 (Z.abs z) 1)).

(** [a / b] on two integers: true division, correctly rounded. *)
Definition int_true_div (a b : Z) : result float :=
  if b =? 0 then Raise ZeroDivisionError
  else if overflows a b then Raise OverflowError
  else Ok (mk_float (xorb (a <? 0) (b <? 0))
                    (nearest_binary64 (Z.abs a) (Z.abs b))).

Definition is_zero (x : float) : bool :=
  match x with
  | S754_zero _ => true
  | _ => false
  end.

Definition float_sub (x y : float) : float := SFsub prec emax x y.
Definition float_mul (x y : float) : float := SFmul prec emax x y.

Definition float_div (x y : float) : result float :=
  if is_zero y then Raise ZeroDivisionError else Ok (SFdiv prec emax x y).

(** [x * n] and [x / n] with a float on the left and an integer on the
    right: the integer is converted first. *)
Definition float_mul_int (x : float) (n : Z) : result float :=
  bind (float_of_int n) (fun y => Ok (float_mul x y)).

Definition float_div_int (x : float) (n : Z) : result float :=
  bind (float_of_int n) (fun y => float_div x y).

(** [int(x)]: truncation toward zero. *)
Definition int_of_float (x : float) : result Z :=
  match x with
  | S754_zero _ => Ok 0
  | S754_infinity _ => Raise OverflowError
  | S754_nan => Raise ValueError
  | S754_finite s m e =>
      Ok (cond_Zopp s (if 0 <=? e then Zpos m * 2 ^ e
                       else Zpos m / 2 ^ (- e)))
  end.

(** *** Strings *)

Definition CR : string := String "013"%char EmptyString.
Definition LF : string := String "010"%char EmptyString.

(** The decimal text of an integer: [str(z)] when it is converted, see
    [format_int]. *)
Definition str_of_int (z : Z) : string := NilZero.string_of_int (Z.to_int z).

Fixpoint repeat_string (s : string) (n : nat) : string :=
  match n with
  | O => EmptyString
  | S n' => s ++ repeat_string s n'
  end.

(** The text of [s * n], empty when [n <= 0]: the product when it is made,
    see [str_repeat]. *)
Definition str_mul (s : string) (n : Z) : string :=
  repeat_string s (Z.to_nat n).

(** [sys.maxsize], the largest machine index. *)
Definition sys_maxsize : Z := 2 ^ 63 - 1.

(** [s * n] for a string [s] of one glyph held on two bytes.  A count that
    is no machine index raises [OverflowError] ("cannot fit 'int' into an
    index-sized integer"), one whose string could not be addressed raises
    [MemoryError].  For a smaller count the allocation is taken to succeed:
    whether it does depends on the machine, and the statements that a
    render is made stay within [BAR_SAFE] glyphs. *)
Definition str_repeat (s : string) (n : Z) : result string :=
  if (n <? - sys_maxsize - 1) || (sys_maxsize <? n) then Raise OverflowError
  else if sys_maxsize <? 2 * n then Raise MemoryError
  else Ok (str_mul s n).

(** From [10^4300] on an integer has more digits than
    [sys.get_int_max_str_digits()] allows, and formatting it raises
    [ValueError]. *)
Definition INT_MAX_STR : Z := Eval vm_compute in 10 ^ 4300.

(** [str(z)], and [z] in an f-string. *)
Definition format_int (z : Z) : result string :=
  if INT_MAX_STR <=? Z.abs z then Raise ValueError else Ok (str_of_int z).

(** [len(s)] for a string held as UTF-8: the bytes that are not
    continuation bytes [10xxxxxx]. *)
Fixpoint len (s : string) : nat :=
  match s with
  | EmptyString => O
  | String c s' =>
      if N.land (N_of_ascii c) 192 =? 128 then len s'
      else S (len s')
  end%N.

Fixpoint zero_pad (width : nat) (s : string) : string :=
  match width with
  | O => s
  | S w => if (String.length s <=? w)%nat then zero_pad w ("0" ++ s) else s
  end.

(** The magnitude [m * 2^e] scaled by [10^d] and rounded to the nearest
    integer, ties to even. *)
Definition scaled_decimal (d : nat) (m : positive) (e : Z) : Z :=
  if 0 <=? e then Zpos m * 2 ^ e * 10 ^ Z.of_nat d
  else round_half_even_div (Zpos m * 10 ^ Z.of_nat d) (2 ^ (- e)).

Definition fixed_digits (d : nat) (n : Z) : string :=
  str_of_int (n / 10 ^ Z.of_nat d) ++
  match d with
  | O => EmptyString
  | S _ => "." ++ zero_pad d (str_of_int (n mod 10 ^ Z.of_nat d))
  end.

Definition sign_string (s : bool) : string := if s then "-" else "".

(** [format(x, ".<d>f")]. *)
Definition format_f (d : nat) (x : float) : string :=
  match x with
  | S754_nan => "nan"
  | S754_infinity s => sign_string s ++ "inf"
  | S754_zero s => sign_string s ++ fixed_digits d 0
  | S754_finite s m e => sign_string s ++ fixed_digits d (scaled_decimal d m e)
  end.

End Py.

Import Py.

Notation "x <- r ;; k" := (bind r (fun x => k))
  (at level 61, r at next level, right associativity).

(** ** What reaches [sys.stdout] *)

Inductive io_event : Type :=
| Write (s : string)
| Flush.

(** ** class ProgressTracker *)

Record ProgressTracker : Type := mkProgressTracker {
  total_steps : Z;
  current_step : Z;
  description : string;
  start_time : float
}.

Definition set_current_step (self : ProgressTracker) (k : Z) : ProgressTracker :=
  {| total_steps := total_steps self;
     current_step := k;
     description := description self;
     start_time := start_time self |}.

(** [__init__]; [now] is the reading of [time.time()]. *)
Definition __init__ (total_steps : Z) (description : string) (now : float)
  : ProgressTracker :=
  {| total_steps := total_steps;
     current_step := 0;
     description := description;
     start_time := now |}.

Definition FILLED : string := "█".
Definition EMPTY : string := "░".

Definition bar_length : Z := 30.

(** The locals of [_display], in the order the method computes them. *)

Definition percent (self : ProgressTracker) : result float :=
  ratio <- int_true_div (current_step self) (total_steps self) ;;
  float_mul_int ratio 100.

Definition eta_str (self : ProgressTracker) (elapsed : float) : result string :=
  if 0 <? current_step self then
    avg_time_per_step <- float_div_int elapsed (current_step self) ;;
    let remaining_steps := total_steps self - current_step self in
    estimated_remaining <- float_mul_int avg_time_per_step remaining_steps ;;
    minutes <- float_div_int estimated_remaining 60 ;;
    Ok (" | ETA: " ++ format_f 1 minutes ++ "min")
  else Ok "".

Definition filled (self : ProgressTracker) : result Z :=
  q <- int_true_div (bar_length * current_step self) (total_steps self) ;;
  int_of_float q.

Definition bar (filled : Z) : string :=
  str_mul FILLED filled ++ str_mul EMPTY (bar_length - filled).

(** [bar] as the two products compute it, with their errors; when they are
    made it is [bar filled]. *)
Definition bar_text (filled : Z) : result string :=
  full <- str_repeat FILLED filled ;;
  rest <- str_repeat EMPTY (bar_length - filled) ;;
  Ok (full ++ rest).

(** The text of the f-string handed to [sys.stdout.write]. *)
Definition progress_line (self : ProgressTracker) (bar : string)
    (percent : float) (eta_str : string) : string :=
  CR ++ description self ++ ": [" ++ bar ++ "] " ++ format_f 0 percent ++
  "% (" ++ str_of_int (current_step self) ++ "/" ++
  str_of_int (total_steps self) ++ ")" ++ eta_str.

(** The f-string as it is evaluated, the two integers being formatted
    after the percentage; when they are it is [progress_line]. *)
Definition progress_text (self : ProgressTracker) (bar : string)
    (percent : float) (eta_str : string) : result string :=
  step <- format_int (current_step self) ;;
  total <- format_int (total_steps self) ;;
  Ok (CR ++ description self ++ ": [" ++ bar ++ "] " ++ format_f 0 percent ++
      "% (" ++ step ++ "/" ++ total ++ ")" ++ eta_str).

(** [print()] after the last render. *)
Definition completion_newline (self : ProgressTracker) : list io_event :=
  if total_steps self <=? current_step self then [Write LF] else [].

Definition _display (self : ProgressTracker) (now : float)
  : result (list io_event) :=
  if total_steps self =? 0 then Ok []
  else
    pct <- percent self ;;
    let elapsed := float_sub now (start_time self) in
    eta <- eta_str self elapsed ;;
    f <- filled self ;;
    b <- bar_text f ;;
    line <- progress_text self b pct eta ;;
    Ok ([Write line; Flush] ++ completion_newline self)%list.

(** [update] assigns [current_step] and then renders: the tracker keeps the
    assignment when the render raises. *)
Definition update (self : ProgressTracker) (step : option Z) (now : float)
  : ProgressTracker * result (list io_event) :=
  let self' :=
    match step with
    | Some k => set_current_step self k
    | None => set_current_step self (current_step self + 1)
    end in
  (self', _display self' now).

(** A caller making one [update] call after the other on the same tracker,
    each with its argument and its clock reading; the outcome of every call
    is recorded, and a call is made whatever the previous one did. *)
Fixpoint run_updates (self : ProgressTracker) (calls : list (option Z * float))
  : ProgressTracker * list (result (list io_event)) :=
  match calls with
  | [] => (self, [])
  | (step, now) :: rest =>
      let '(self', r) := update self step now in
      let '(self'', rs) := run_updates self' rest in
      (self'', r :: rs)
  end.

(** The values [current_step] takes, call after call. *)
Fixpoint steps_seen (self : ProgressTracker) (calls : list (option Z * float))
  : list Z :=
  match calls with
  | [] => []
  | (step, now) :: rest =>
      let self' := fst (update self step now) in
      current_step self' :: steps_seen self' rest
  end.

(** ** track_progress *)

(** The body of the [with] statement: it is handed the tracker, may change
    it and write, and either falls off its end or raises. *)
Definition with_body : Type :=
  ProgressTracker -> ProgressTracker * list io_event * result unit.

(** [t0] is the clock reading of the constructor, [t1] the one of the
    render in the [finally] clause.  An exception raised in the [finally]
    clause replaces the one that was propagating. *)
Definition track_progress (total_steps' : Z) (description' : string)
    (t0 : float) (body : with_body) (t1 : float)
  : ProgressTracker * list io_event * result unit :=
  let tracker := __init__ total_steps' description' t0 in
  let '(tracker, out, exit) := body tracker in
  if current_step tracker <? total_steps tracker then
    let '(tracker', r) := update tracker (Some (total_steps tracker)) t1 in
    match r with
    | Ok evs => (tracker', (out ++ evs)%list, exit)
    | Raise e => (tracker', out, Raise e)
    end
  else (tracker, out, exit).

(** ** Inputs of the worked scenarios *)

(** A clock reading of [n] seconds. *)
Definition seconds (n : Z) : float :=
  mk_float (n <? 0) (nearest_binary64 (Z.abs n) 1).

Definition no_step (now : float) : option Z * float := (None, now).

(** A body that raises at once. *)
Definition failing_body (what : string) : with_body :=
  fun tracker => (tracker, [], Raise (Exception what)).

(** ** The range in which a render stays within the floats *)

(** What [_display] asks of the runtime: the quotient for the bar must be a
    float, and when an ETA is computed so must [current_step] and the number
    of remaining steps. *)
Definition in_double_range (self : ProgressTracker) : bool :=
  (total_steps self =? 0) ||
  (negb (overflows (bar_length * current_step self) (total_steps self)) &&
   (negb (0 <? current_step self) ||
    (negb (overflows (current_step self) 1) &&
     negb (overflows (total_steps self - current_step self) 1)))).

(** A range in which the render is certainly made: within the floats, a bar
    of at most [2^20 + 30] glyphs, and integers that are formatted. *)
Definition BAR_SAFE : Z := 2 ^ 20.

Definition in_render_range (self : ProgressTracker) : bool :=
  (total_steps self =? 0) ||
  (in_double_range self &&
   (Z.abs (bar_length * current_step self)
      <=? BAR_SAFE * Z.abs (total_steps self)) &&
   (Z.abs (current_step self) <? INT_MAX_STR) &&
   (Z.abs (total_steps self) <? INT_MAX_STR)).

(** A tracker with [current_step] already set, started at second 0. *)
Definition tracker_at (total_steps' current_step' : Z) : ProgressTracker :=
  set_current_step (__init__ total_steps' "Progress" (seconds 0)) current_step'.

(** ** A second reading of true division, for comparison

    The quotient as [SpecFloat] computes it for its own division: the
    division core applied to the two integers, then its rounding. *)
Definition SF_int_div (a b : Z) : float :=
  let '(q, e, l) := SFdiv_core_binary prec emax (Z.abs a) 0 (Z.abs b) 0 in
  binary_round_aux prec emax (xorb (a <? 0) (b <? 0)) q e l.

Definition division_samples : list (Z * Z) :=
  [(7, 3); (1, 3); (- 30, 7); (50, 100); (10 ^ 30, 7); (1, 10 ^ 320);
   (3, 2 ^ 1075); (30 * (2 ^ 60 - 1), 2 ^ 60); (2 ^ 53 + 1, 1);
   (2 ^ 53 + 3, 1); (- (2 ^ 60 + 2 ^ 7), 1); (2 ^ 60 + 2 ^ 7 + 1, 1);
   (DBL_OVF - 1, 1); (2 ^ 2000, 2 ^ 1000); (5, - 2 ^ 1074); (1, 2 ^ 1074)].

Definition conversion_samples : list Z :=
  [0; 1; 60; 100; - 3; 2 ^ 53 + 1; 2 ^ 53 + 3; - (2 ^ 60 + 2 ^ 7);
   2 ^ 60 + 2 ^ 7 + 1; 10 ^ 22; 10 ^ 300 + 1; DBL_OVF - 1; 1 - DBL_OVF].

(** A body that calls [tracker.update()] once, at clock reading [now]. *)
Definition updating_body (now : float) : with_body :=
  fun tracker =>
    let '(tracker', r) := update tracker None now in
    match r with
    | Ok evs => (tracker', evs, Ok tt)
    | Raise e => (tracker', [], Raise e)
    end.

(** Neither infinite nor NaN. *)
Definition is_finite (x : float) : bool :=
  match x with
  | S754_zero _ | S754_finite _ _ _ => true
  | _ => false
  end.

(** ** The loop of the docstring of [track_progress] *)

(** [for ...: tracker.update()], one call per clock reading; a call that
    raises ends the body with its exception. *)
Fixpoint loop_body (nows : list float) : with_body :=
  fun tracker =>
    match nows with
    | [] => (tracker, [], Ok tt)
    | now :: rest =>
        let '(tracker', r) := update tracker None now in
        match r with
        | Ok evs =>
            let '(tracker'', out, exit) := loop_body rest tracker' in
            (tracker'', (evs ++ out)%list, exit)
        | Raise e => (tracker', [], Raise e)
        end
    end.

(** The writes of a lone newline, which is what [print()] sends. *)
Definition is_newline (ev : io_event) : bool :=
  match ev with
  | Write s => String.eqb s LF
  | Flush => false
  end.

Definition count_newlines (evs : list io_event) : nat :=
  List.length (filter is_newline evs).

(** * prompt_ops.core.utils.summary_utils

    The strategy is an object whose attributes are probed with [hasattr] and
    [getattr]: it is a record of optional attributes, [None] for an
    attribute the object does not have, each with the type of the values the
    function handles (a count is an integer, a data set a list, a method a
    function that may raise).  The three names the module imports from
    elsewhere in the package, [map_auto_mode_to_dspy],
    [PreOptimizationSummary] and its method [log], are handed in as
    [Imports], with the text [str(e)] of an exception. *)

Inductive log_event : Type :=
| Print (line : string)
| Warning (message : string).

(** The values stored in [mipro_params]. *)
Inductive param : Type :=
| PStr (s : string)
| PInt (n : Z)
| PFloat (x : float).

Record Metric : Type := mkMetric {
  metric_name_attr : option string;
  metric_str : string
}.

Record Strategy (Model PromptData Example : Type) : Type := mkStrategy {
  proposer_kwargs : option (option (list (string * string)));
  compute_baseline : option bool;
  _compute_baseline_score : option (PromptData -> result float);
  _get_model_name : option (Model -> result string);
  task_model : option Model;
  prompt_model : option Model;
  metric : option (option Metric);
  auto : option string;
  num_trials : option (option Z);
  max_labeled_demos : option Z;
  max_bootstrapped_demos : option Z;
  num_candidates : option Z;
  num_threads : option Z;
  init_temperature : option float;
  seed : option Z;
  valset : option (option (list Example));
  trainset : option (option (list Example));
  testset : option (option (list Example))
}.

Arguments proposer_kwargs {Model PromptData Example} _.
Arguments compute_baseline {Model PromptData Example} _.
Arguments _compute_baseline_score {Model PromptData Example} _.
Arguments _get_model_name {Model PromptData Example} _.
Arguments task_model {Model PromptData Example} _.
Arguments prompt_model {Model PromptData Example} _.
Arguments metric {Model PromptData Example} _.
Arguments auto {Model PromptData Example} _.
Arguments num_trials {Model PromptData Example} _.
Arguments max_labeled_demos {Model PromptData Example} _.
Arguments max_bootstrapped_demos {Model PromptData Example} _.
Arguments num_candidates {Model PromptData Example} _.
Arguments num_threads {Model PromptData Example} _.
Arguments init_temperature {Model PromptData Example} _.
Arguments seed {Model PromptData Example} _.
Arguments valset {Model PromptData Example} _.
Arguments trainset {Model PromptData Example} _.
Arguments testset {Model PromptData Example} _.

Record Imports (Summary : Type) : Type := mkImports {
  map_auto_mode_to_dspy : string -> string;
  PreOptimizationSummary :
    string -> string -> string -> Z -> Z -> list (string * param) ->
    option string -> option float -> Summary;
  PreOptimizationSummary_minimal :
    string -> string -> string -> Z -> Z -> list (string * param) -> Summary;
  log : Summary -> list log_event * result unit;
  str_of_exn : exn -> string
}.

Arguments map_auto_mode_to_dspy {Summary} _ _.
Arguments PreOptimizationSummary {Summary} _ _ _ _ _ _ _ _ _.
Arguments PreOptimizationSummary_minimal {Summary} _ _ _ _ _ _ _.
Arguments log {Summary} _ _.
Arguments str_of_exn {Summary} _ _.

(** [getattr(obj, name, default)] on an optional attribute. *)
Definition getattr {A : Type} (attribute : option A) (default : A) : A :=
  match attribute with
  | Some v => v
  | None => default
  end.

(** [d.get(key)] on a dict held as an association list. *)
Fixpoint dict_get {V : Type} (d : list (string * V)) (key : string) : option V :=
  match d with
  | [] => None
  | (k, v) :: rest => if String.eqb k key then Some v else dict_get rest key
  end.

(** [len(getattr(strategy, name, []) or [])]. *)
Definition size_of {Example : Type} (attribute : option (option (list Example)))
  : Z :=
  match attribute with
  | Some (Some examples) => Z.of_nat (List.length examples)
  | _ => 0
  end.

(** The truth value of a float: everything but the two zeros. *)
Definition float_truthy (x : float) : bool := negb (is_zero x).

Definition float_add_int (x : float) (n : Z) : result float :=
  bind (float_of_int n) (fun y => Ok (SFadd prec emax x y)).

Definition int_mul_float (n : Z) (x : float) : result float :=
  bind (float_of_int n) (fun y => Ok (float_mul y x)).

Section SummaryUtils.

Context {Model PromptData Example Summary : Type}.
Variable imports : Imports Summary.
Variable strategy : Strategy Model PromptData Example.

(** The locals of [create_pre_optimization_summary], in the order the
    function computes them. *)

Definition guidance : option string :=
  match proposer_kwargs strategy with
  | Some (Some kwargs) =>
      match kwargs with
      | [] => None
      | _ => dict_get kwargs "tip"
      end
  | _ => None
  end.

(** [baseline_score], [baseline_time] and the warning of the [except]
    clause; [clock] holds the two readings of [time.time()]. *)
Definition baseline (prompt_data : PromptData) (clock : float * float)
  : option float * option float * list log_event :=
  if getattr (compute_baseline strategy) false then
    match _compute_baseline_score strategy with
    | Some compute =>
        match compute prompt_data with
        | Ok score =>
            (Some score, Some (float_sub (snd clock) (fst clock)), [])
        | Raise e =>
            (None, None,
             [Warning ("Failed to compute baseline score: "
                         ++ str_of_exn imports e)])
        end
    | None => (None, None, [])
    end
  else (None, None, []).

(** [task_model_name] and [proposer_model_name]. *)
Definition model_names : result (string * string) :=
  match _get_model_name strategy with
  | Some get_model_name =>
      task_model_name <-
        match task_model strategy with
        | Some model => get_model_name model
        | None => Ok "Unknown"
        end ;;
      proposer_model_name <-
        match prompt_model strategy with
        | Some model => get_model_name model
        | None => Ok "Unknown"
        end ;;
      Ok (task_model_name, proposer_model_name)
  | None => Ok ("Unknown", "Unknown")
  end.

Definition metric_name : string :=
  match metric strategy with
  | Some (Some m) => getattr (metric_name_attr m) (metric_str m)
  | _ => "None"
  end.

Definition auto_mode : string := getattr (auto strategy) "basic".

Definition trial_estimates : list (string * Z) :=
  [("light", 7); ("medium", 12); ("heavy", 20)].

Definition resolved_num_trials : Z :=
  match getattr (num_trials strategy) None with
  | Some n => n
  | None =>
      let dspy_mode := map_auto_mode_to_dspy imports auto_mode in
      getattr (dict_get trial_estimates dspy_mode) 7
  end.

Definition mipro_params : list (string * param) :=
  [("auto_user", PStr auto_mode);
   ("auto_dspy", PStr (map_auto_mode_to_dspy imports auto_mode));
   ("max_labeled_demos", PInt (getattr (max_labeled_demos strategy) 5));
   ("max_bootstrapped_demos", PInt (getattr (max_bootstrapped_demos strategy) 4));
   ("num_candidates", PInt (getattr (num_candidates strategy) 10));
   ("num_threads", PInt (getattr (num_threads strategy) 18));
   ("init_temperature",
    PFloat (getattr (init_temperature strategy)
              (mk_float false (nearest_binary64 1 2))));
   ("seed", PInt (getattr (seed strategy) 9));
   ("num_trials", PInt resolved_num_trials)].

Definition val_size : Z := size_of (valset strategy).
Definition train_size : Z := size_of (trainset strategy).
Definition total_evaluations : Z := resolved_num_trials * val_size.

Definition estimated_time_minutes (baseline_time : option float)
  : result (option float) :=
  match baseline_time with
  | Some elapsed =>
      if float_truthy elapsed && (0 <? val_size) then
        let testset_size := size_of (testset strategy) in
        if 0 <? testset_size then
          time_per_example <- float_div_int elapsed testset_size ;;
          evaluation <- float_mul_int time_per_example val_size ;;
          time_per_trial <- float_add_int evaluation 10 ;;
          total <- int_mul_float resolved_num_trials time_per_trial ;;
          minutes <- float_div_int total 60 ;;
          Ok (Some minutes)
        else Ok None
      else Ok None
  | None => Ok None
  end.

Definition rule : string := str_mul "=" 60.

(** The lines of the plan when every integer in them is formatted:
    [baseline_line], [time_lines] and [plan].  The line about time is the
    [if] and its [elif]. *)
Definition baseline_line (baseline_time : option float) : list log_event :=
  match baseline_time with
  | Some elapsed =>
      if float_truthy elapsed then
        [Print ("Baseline eval took " ++ format_f 1 elapsed ++ "s - expect ~"
                  ++ str_of_int resolved_num_trials
                  ++ " trials of similar duration")]
      else []
  | None => []
  end.

Definition time_lines (estimate : option float) (baseline_time : option float)
  : list log_event :=
  match estimate with
  | Some minutes =>
      if float_truthy minutes then
        [Print ("Estimated time: ~" ++ format_f 1 minutes ++ " minutes")]
      else baseline_line baseline_time
  | None => baseline_line baseline_time
  end.

Definition plan (estimate : option float) (baseline_time : option float)
  : list log_event :=
  ([Print (LF ++ rule);
    Print "OPTIMIZATION PLAN";
    Print rule;
    Print ("Mode: " ++ auto_mode ++ " → DSPy '"
             ++ map_auto_mode_to_dspy imports auto_mode ++ "' ("
             ++ str_of_int resolved_num_trials ++ " trials)");
    Print ("Training examples: " ++ str_of_int train_size);
    Print ("Validation examples: " ++ str_of_int val_size);
    Print ("Total evaluations: " ++ str_of_int total_evaluations ++ " ("
             ++ str_of_int resolved_num_trials ++ " trials × "
             ++ str_of_int val_size ++ " examples)");
    Print ("Parallel threads: " ++ str_of_int (getattr (num_threads strategy) 18))]
   ++ time_lines estimate baseline_time
   ++ [Print (rule ++ LF)])%list.

(** The f-strings of the plan as they are evaluated, each just before it
    is printed. *)
Definition baseline_text (baseline_time : option float)
  : list (result string) :=
  match baseline_time with
  | Some elapsed =>
      if float_truthy elapsed then
        [trials <- format_int resolved_num_trials ;;
         Ok ("Baseline eval took " ++ format_f 1 elapsed ++ "s - expect ~"
               ++ trials ++ " trials of similar duration")]
      else []
  | None => []
  end.

Definition time_texts (estimate : option float) (baseline_time : option float)
  : list (result string) :=
  match estimate with
  | Some minutes =>
      if float_truthy minutes then
        [Ok ("Estimated time: ~" ++ format_f 1 minutes ++ " minutes")]
      else baseline_text baseline_time
  | None => baseline_text baseline_time
  end.

Definition plan_head_texts : list (result string) :=
  [Ok (LF ++ rule);
   Ok "OPTIMIZATION PLAN";
   Ok rule;
   (trials <- format_int resolved_num_trials ;;
    Ok ("Mode: " ++ auto_mode ++ " → DSPy '"
          ++ map_auto_mode_to_dspy imports auto_mode ++ "' ("
          ++ trials ++ " trials)"));
   (train <- format_int train_size ;;
    Ok ("Training examples: " ++ train));
   (val <- format_int val_size ;;
    Ok ("Validation examples: " ++ val));
   (total <- format_int total_evaluations ;;
    trials <- format_int resolved_num_trials ;;
    val <- format_int val_size ;;
    Ok ("Total evaluations: " ++ total ++ " (" ++ trials ++ " trials × "
          ++ val ++ " examples)"));
   (threads <- format_int (getattr (num_threads strategy) 18) ;;
    Ok ("Parallel threads: " ++ threads))].

Definition plan_texts (estimate : option float) (baseline_time : option float)
  : list (result string) :=
  List.app plan_head_texts
    (List.app (time_texts estimate baseline_time) [Ok (rule ++ LF)]).

(** The prints, one after the other: an f-string that raises ends them. *)
Fixpoint print_all (texts : list (result string))
  : list log_event * result unit :=
  match texts with
  | [] => ([], Ok tt)
  | Ok line :: rest =>
      let '(events, r) := print_all rest in (Print line :: events, r)
  | Raise e :: _ => ([], Raise e)
  end.

Definition create_pre_optimization_summary (prompt_data : PromptData)
    (clock : float * float) : list log_event * result Summary :=
  let '(baseline_score, baseline_time, warnings) := baseline prompt_data clock in
  match model_names with
  | Raise e => (warnings, Raise e)
  | Ok (task_model_name, proposer_model_name) =>
      match estimated_time_minutes baseline_time with
      | Raise e => (warnings, Raise e)
      | Ok estimate =>
          let '(printed, r) := print_all (plan_texts estimate baseline_time) in
          ((warnings ++ printed)%list,
           match r with
           | Ok _ =>
               Ok (PreOptimizationSummary imports task_model_name
                     proposer_model_name metric_name train_size val_size
                     mipro_params guidance baseline_score)
           | Raise e => Raise e
           end)
      end
  end.

Definition create_and_display_summary (prompt_data : PromptData)
    (clock : float * float) : list log_event * Summary :=
  let fallback (events : list log_event) (e : exn) :=
    ((events ++
      [Warning ("Failed to create or display pre-optimization summary: "
                  ++ str_of_exn imports e)])%list,
     PreOptimizationSummary_minimal imports "Unknown" "Unknown" "Unknown" 0 0 []) in
  let '(events, created) := create_pre_optimization_summary prompt_data clock in
  match created with
  | Ok summary =>
      let '(logged, r) := log imports summary in
      match r with
      | Ok _ => ((events ++ logged)%list, summary)
      | Raise e => fallback (events ++ logged)%list e
      end
  | Raise e => fallback events e
  end.

End SummaryUtils.

(** The same strategy with [compute_baseline] switched off. *)
Definition without_baseline {Model PromptData Example : Type}
    (strategy : Strategy Model PromptData Example)
  : Strategy Model PromptData Example :=
  {| proposer_kwargs := proposer_kwargs strategy;
     compute_baseline := Some false;
     _compute_baseline_score := _compute_baseline_score strategy;
     _get_model_name := _get_model_name strategy;
     task_model := task_model strategy;
     prompt_model := prompt_model strategy;
     metric := metric strategy;
     auto := auto strategy;
     num_trials := num_trials strategy;
     max_labeled_demos := max_labeled_demos strategy;
     max_bootstrapped_demos := max_bootstrapped_demos strategy;
     num_candidates := num_candidates strategy;
     num_threads := num_threads strategy;
     init_temperature := init_temperature strategy;
     seed := seed strategy;
     valset := valset strategy;
     trainset := trainset strategy;
     testset := testset strategy |}.

(** ** Inputs of the worked examples of the summary *)

(** A summary that keeps what it is given. *)
Record plain_summary : Type := mk_plain_summary {
  summary_task_model : string;
  summary_proposer_model : string;
  summary_metric_name : string;
  summary_train_size : Z;
  summary_val_size : Z;
  summary_mipro_params : list (string * param);
  summary_guidance : option string;
  summary_baseline_score : option float
}.

Definition sample_imports : Imports plain_summary :=
  {| map_auto_mode_to_dspy := fun mode =>
       getattr (dict_get [("basic", "light"); ("intermediate", "medium");
                          ("advanced", "heavy")] mode) mode;
     PreOptimizationSummary := mk_plain_summary;
     PreOptimizationSummary_minimal := fun task proposer name train val params =>
       mk_plain_summary task proposer name train val params None None;
     log := fun summary => ([Print (summary_task_model summary)], Ok tt);
     str_of_exn := fun e =>
       match e with
       | ZeroDivisionError => "division by zero"
       | OverflowError => "int too large to convert to float"
       | ValueError => "invalid value"
       | MemoryError => "out of memory"
       | Exception what => what
       end |}.

(** A strategy in mode "intermediate" with 5 training, 3 validation and 2
    test examples, whose baseline and model-name methods are given. *)
Definition sample_strategy (compute : option (unit -> result float))
    (get_model_name : option (unit -> result string))
  : Strategy unit unit unit :=
  {| proposer_kwargs := Some (Some [("tip", "be brief")]);
     compute_baseline := Some true;
     _compute_baseline_score := compute;
     _get_model_name := get_model_name;
     task_model := Some tt;
     prompt_model := None;
     metric := Some (Some {| metric_name_attr := Some "exact_match";
                             metric_str := "<function exact_match>" |});
     auto := Some "intermediate";
     num_trials := Some None;
     max_labeled_demos := None;
     max_bootstrapped_demos := None;
     num_candidates := None;
     num_threads := Some 4;
     init_temperature := None;
     seed := None;
     valset := Some (Some [tt; tt; tt]);
     trainset := Some (Some [tt; tt; tt; tt; tt]);
     testset := Some (Some [tt; tt]) |}.

Definition sample_score : float := mk_float false (nearest_binary64 3 4).

Definition scoring : option (unit -> result float) :=
  Some (fun _ => Ok sample_score).

Definition failing_scoring : option (unit -> result float) :=
  Some (fun _ => Raise (Exception "no test set")).

Definition naming : option (unit -> result string) :=
  Some (fun _ => Ok "llama").

Definition failing_naming : option (unit -> result string) :=
  Some (fun _ => Raise (Exception "no model")).

(** The baseline takes the 12 seconds between the two readings. *)
Definition sample_clock : float * float := (seconds 100, seconds 112).

(** What the sample strategy with a working baseline prints and returns. *)
Definition sample_events : list log_event :=
  [Print (LF ++ str_mul "=" 60);
   Print "OPTIMIZATION PLAN";
   Print (str_mul "=" 60);
   Print "Mode: intermediate → DSPy 'medium' (12 trials)";
   Print "Training examples: 5";
   Print "Validation examples: 3";
   Print "Total evaluations: 36 (12 trials × 3 examples)";
   Print "Parallel threads: 4";
   Print "Estimated time: ~5.6 minutes";
   Print (str_mul "=" 60 ++ LF)].

Definition sample_summary : plain_summary :=
  {| summary_task_model := "llama";
     summary_proposer_model := "Unknown";
     summary_metric_name := "exact_match";
     summary_train_size := 5;
     summary_val_size := 3;
     summary_mipro_params :=
       [("auto_user", PStr "intermediate");
        ("auto_dspy", PStr "medium");
        ("max_labeled_demos", PInt 5);
        ("max_bootstrapped_demos", PInt 4);
        ("num_candidates", PInt 10);
        ("num_threads", PInt 4);
        ("init_temperature", PFloat (mk_float false (nearest_binary64 1 2)));
        ("seed", PInt 9);
        ("num_trials", PInt 12)];
     summary_guidance := Some "be brief";
     summary_baseline_score := Some sample_score |}.

(** * Properties of the embedded Python operations *)

Section Arithmetic.

Local Open Scope Z_scope.

Lemma Ok_inj {A : Type} (a b : A) : Ok a = Ok b -> a = b.
Proof. congruence. Qed.

Lemma DBL_OVF_large : 2 ^ 1000 < DBL_OVF.
Proof. reflexivity. Qed.

Lemma overflows_false (a b : Z) :
  overflows a b = false <-> Z.abs a < DBL_OVF * Z.abs b.
Proof. unfold overflows. rewrite Z.leb_gt. reflexivity. Qed.

Lemma overflows_true (a b : Z) :
  overflows a b = true <-> DBL_OVF * Z.abs b <= Z.abs a.
Proof. unfold overflows. rewrite Z.leb_le. reflexivity. Qed.

(** Rounding a quotient moves it by less than one, and not at all when the
    division is exact. *)
Lemma round_half_even_div_bounds (n d : Z) :
  n / d <= round_half_even_div n d <= n / d + 1.
Proof.
  unfold round_half_even_div.
  destruct (2 * (n mod d) ?= d); [destruct (Z.even (n / d))| |]; lia.
Qed.

Lemma round_half_even_div_exact (n d : Z) :
  0 < d -> n mod d = 0 -> round_half_even_div n d = n / d.
Proof.
  intros Hd Hr. unfold round_half_even_div. rewrite Hr.
  change (2 * 0) with 0. destruct (Z.compare_spec 0 d); try lia.
Qed.

Lemma round_half_even_div_nonneg (n d : Z) :
  0 <= n -> 0 < d -> 0 <= round_half_even_div n d.
Proof.
  intros Hn Hd. pose proof (round_half_even_div_bounds n d).
  pose proof (Z.div_pos n d Hn Hd). lia.
Qed.

Lemma round_half_even_div_pos (n d : Z) :
  0 < d -> d <= n -> 0 < round_half_even_div n d.
Proof.
  intros Hd Hn. pose proof (round_half_even_div_bounds n d).
  assert (1 <= n / d) by (apply Z.div_le_lower_bound; lia). lia.
Qed.

(** A float built by [mk_float] is zero or finite. *)
Lemma mk_float_finite (s : bool) (m e : Z) :
  0 <= m ->
  mk_float s (m, e) = S754_zero s /\ m = 0 \/
  exists p e', mk_float s (m, e) = S754_finite s p e' /\ 0 < m.
Proof.
  intros Hm. unfold mk_float. destruct m as [|p|p]; try lia.
  - left. split; reflexivity.
  - right. destruct (Z.pos p =? 2 ^ 53); eauto with zarith.
Qed.

Lemma nearest_binary64_nonneg (a b : Z) :
  0 <= a -> 0 < b -> 0 <= fst (nearest_binary64 a b).
Proof.
  intros Ha Hb. unfold nearest_binary64. cbn [fst].
  apply round_half_even_div_nonneg.
  - apply Z.mul_nonneg_nonneg; [lia | apply Z.pow_nonneg; lia].
  - apply Z.mul_pos_pos; [lia | apply Z.pow_pos_nonneg; lia].
Qed.


Lemma floor_log2_ratio_le (a b : Z) :
  floor_log2_ratio a b <= Z.log2 a - Z.log2 b.
Proof.
  unfold floor_log2_ratio.
  destruct (_ <=? _); lia.
Qed.

(** A nonzero integer converts to a nonzero float. *)
Lemma nearest_binary64_int_pos (z : Z) :
  0 < z -> 0 < fst (nearest_binary64 z 1).
Proof.
  intros Hz. unfold nearest_binary64. cbn [fst].
  set (e := Z.max (floor_log2_ratio z 1 - 52) (- 1074)).
  apply round_half_even_div_pos.
  - apply Z.mul_pos_pos; [lia | apply Z.pow_pos_nonneg; lia].
  - rewrite Z.mul_1_l.
    destruct (Z.max_spec e 0) as [[He ->] | [He ->]].
    + change (2 ^ 0) with 1.
      assert (0 < 2 ^ Z.max (- e) 0) by (apply Z.pow_pos_nonneg; lia).
      nia.
    + assert (Z.max (- e) 0 = 0) as -> by lia.
      change (2 ^ 0) with 1. rewrite Z.mul_1_r.
      pose proof (floor_log2_ratio_le z 1) as HF.
      change (Z.log2 1) with 0 in HF.
      destruct (Z.log2_spec z Hz) as [Hlo _].
      apply Z.le_trans with (2 ^ Z.log2 z); [|exact Hlo].
      apply Z.pow_le_mono_r; lia.
Qed.

Lemma float_of_int_ok (z : Z) :
  overflows z 1 = false -> exists x, float_of_int z = Ok x.
Proof. intros H. unfold float_of_int. rewrite H. eauto. Qed.

Lemma float_of_int_nonzero (z : Z) (x : float) :
  z <> 0 -> float_of_int z = Ok x -> is_zero x = false.
Proof.
  intros Hz. unfold float_of_int. destruct (overflows z 1); [discriminate|].
  intros H. apply Ok_inj in H. subst x.
  pose proof (nearest_binary64_int_pos (Z.abs z) ltac:(lia)) as Hm.
  destruct (nearest_binary64 (Z.abs z) 1) as [m e]. cbn [fst] in Hm.
  destruct (mk_float_finite (z <? 0) m e ltac:(lia)) as [[_ E] | (p & e' & E & _)].
  - lia.
  - rewrite E. reflexivity.
Qed.

(** [int()] of a quotient of integers does not raise. *)
Lemma int_of_float_mk_float (s : bool) (m e : Z) :
  0 <= m -> exists n, int_of_float (mk_float s (m, e)) = Ok n.
Proof.
  intros Hm.
  destruct (mk_float_finite s m e Hm) as [[-> _] | (p & e' & -> & _)];
    cbn; eauto.
Qed.

(** *** Truncating a small quotient

    With [0 <= a <= 30 * b] and [b < 2^48] the float nearest to [a / b] lies
    on the same side of every integer as [a / b] itself. *)

Lemma floor_log2_ratio_small (a b : Z) :
  0 < b -> 0 <= a <= 30 * b -> floor_log2_ratio a b <= 4.
Proof.
  intros Hb Ha.
  pose proof (floor_log2_ratio_le a b) as Hle.
  destruct (Z.eq_dec a 0) as [-> | Hnz].
  { change (Z.log2 0) with 0 in Hle. pose proof (Z.log2_nonneg b). lia. }
  destruct (Z.log2_spec a ltac:(lia)) as [Ha1 Ha2].
  destruct (Z.log2_spec b Hb) as [Hb1 Hb2].
  assert (Hk : Z.log2 a - Z.log2 b <= 5).
  { assert (Z.log2 a < Z.log2 b + 6); [|lia].
    apply (Z.pow_lt_mono_r_iff 2); [lia | pose proof (Z.log2_nonneg b); lia |].
    replace (Z.log2 b + 6) with (Z.succ (Z.log2 b) + 5) by lia.
    rewrite Z.pow_add_r by (pose proof (Z.log2_nonneg b); lia).
    change (2 ^ 5) with 32. lia. }
  destruct (Z.eq_dec (Z.log2 a - Z.log2 b) 5) as [E | NE]; [|lia].
  unfold floor_log2_ratio. rewrite E.
  change (2 ^ Z.max 5 0) with 32. change (2 ^ Z.max (- (5)) 0) with 1.
  destruct (Z.leb_spec (b * 32) (a * 1)); lia.
Qed.

Lemma nearest_binary64_trunc (a b : Z) :
  0 < b < 2 ^ 48 -> 0 <= a <= 30 * b ->
  let '(m, e) := nearest_binary64 a b in
  e <= - 48 /\ 0 <= m /\ m / 2 ^ (- e) = a / b.
Proof.
  intros Hb Ha. unfold nearest_binary64.
  pose proof (floor_log2_ratio_small a b ltac:(lia) Ha) as HF.
  set (e := Z.max (floor_log2_ratio a b - 52) (- 1074)).
  assert (He : e <= - 48) by lia.
  assert (Z.max (- e) 0 = - e) as -> by lia.
  assert (Z.max e 0 = 0) as -> by lia.
  change (2 ^ 0) with 1. rewrite Z.mul_1_r.
  set (P := 2 ^ (- e)).
  assert (HP : 2 ^ 48 <= P) by (apply Z.pow_le_mono_r; lia).
  pose proof (round_half_even_div_bounds (a * P) b) as [Hlo Hhi].
  assert (Hq : a / b * P <= a * P / b).
  { apply Z.div_le_lower_bound; [lia|].
    pose proof (Z.mul_div_le a b ltac:(lia)). nia. }
  split; [exact He|]. split.
  { pose proof (Z.div_pos a b ltac:(lia) ltac:(lia)). nia. }
  symmetry.
  apply Z.div_unique with (r := round_half_even_div (a * P) b - P * (a / b));
    [|lia].
  left. split; [lia|].
  destruct (Z.eq_dec (a mod b) 0) as [Hr | Hr].
  - assert (Hab : a = b * (a / b)).
    { pose proof (Z.div_mod a b ltac:(lia)). lia. }
    rewrite round_half_even_div_exact; [| lia |].
    + rewrite Hab at 1.
      replace (b * (a / b) * P) with (a / b * P * b) by ring.
      rewrite Z.div_mul by lia. lia.
    + rewrite Hab. replace (b * (a / b) * P) with (a / b * P * b) by ring.
      apply Z.mod_mul. lia.
  - assert (a * P / b < (a / b + 1) * P - 1); [|lia].
    apply Z.div_lt_upper_bound; [lia|].
    pose proof (Z.div_mod a b ltac:(lia)) as Hdm.
    pose proof (Z.mod_pos_bound a b ltac:(lia)) as Hmb.
    nia.
Qed.

Lemma int_true_div_trunc (a b : Z) :
  0 < b < 2 ^ 48 -> 0 <= a <= 30 * b ->
  exists x, int_true_div a b = Ok x /\ int_of_float x = Ok (a / b).
Proof.
  intros Hb Ha. unfold int_true_div.
  assert ((b =? 0) = false) as -> by lia.
  assert (overflows a b = false) as ->.
  { apply overflows_false. pose proof DBL_OVF_large.
    assert (30 < 2 ^ 1000) by reflexivity. nia. }
  eexists. split; [reflexivity|].
  assert ((a <? 0) = false) as -> by lia.
  assert ((b <? 0) = false) as -> by lia.
  rewrite !Z.abs_eq by lia. cbn [xorb].
  pose proof (nearest_binary64_trunc a b Hb Ha) as H.
  destruct (nearest_binary64 a b) as [m e]. destruct H as (He & Hm & Hdiv).
  unfold mk_float. destruct m as [|p|p]; try lia.
  - cbn. rewrite <- Hdiv. reflexivity.
  - destruct (Z.eqb_spec (Z.pos p) (2 ^ 53)) as [E | NE]; cbn [int_of_float cond_Zopp].
    + assert ((0 <=? e + 1) = false) as -> by lia.
      f_equal. rewrite <- Hdiv, E.
      change (Z.pos (Z.to_pos (2 ^ 52))) with (2 ^ 52).
      replace (- e) with (1 + - (e + 1)) by lia.
      rewrite (Z.pow_add_r 2 1) by lia.
      change (2 ^ 53) with (2 ^ 1 * 2 ^ 52).
      rewrite Z.div_mul_cancel_l; [reflexivity | | lia].
      apply Z.pow_nonzero; lia.
    + assert ((0 <=? e) = false) as -> by lia.
      f_equal. exact Hdiv.
Qed.

(** *** Truncating a bounded quotient *)

Lemma floor_log2_ratio_below (a b k : Z) :
  0 <= k -> 0 < b -> 0 <= a < 2 ^ (k + 1) * b -> floor_log2_ratio a b <= k.
Proof.
  intros Hk Hb Ha.
  pose proof (floor_log2_ratio_le a b) as Hle.
  destruct (Z.eq_dec a 0) as [-> | Hnz].
  { change (Z.log2 0) with 0 in Hle. pose proof (Z.log2_nonneg b). lia. }
  destruct (Z.log2_spec a ltac:(lia)) as [Ha1 Ha2].
  destruct (Z.log2_spec b Hb) as [Hb1 Hb2].
  pose proof (Z.log2_nonneg b) as Hlb.
  assert (Hk' : Z.log2 a - Z.log2 b <= k + 1).
  { assert (Z.log2 a < Z.log2 b + (k + 2)); [|lia].
    apply (Z.pow_lt_mono_r_iff 2); [lia | lia |].
    replace (Z.log2 b + (k + 2)) with (Z.succ (Z.log2 b) + (k + 1)) by lia.
    rewrite Z.pow_add_r by lia.
    assert (0 < 2 ^ (k + 1)) by (apply Z.pow_pos_nonneg; lia). nia. }
  destruct (Z.eq_dec (Z.log2 a - Z.log2 b) (k + 1)) as [E | NE]; [|lia].
  unfold floor_log2_ratio. rewrite E.
  rewrite Z.max_l by lia. rewrite Z.max_r by lia. change (2 ^ 0) with 1.
  destruct (Z.leb_spec (b * 2 ^ (k + 1)) (a * 1)); lia.
Qed.

Lemma nearest_binary64_le (a b N : Z) :
  0 < b -> 0 <= a <= N * b -> N < 2 ^ 52 ->
  let '(m, e) := nearest_binary64 a b in
  e < 0 /\ 0 <= m /\ m / 2 ^ (- e) <= N.
Proof.
  intros Hb Ha HN. unfold nearest_binary64.
  assert (HF : floor_log2_ratio a b <= 51).
  { apply floor_log2_ratio_below; [lia | exact Hb |].
    change (2 ^ (51 + 1)) with (2 ^ 52). nia. }
  set (e := Z.max (floor_log2_ratio a b - 52) (- 1074)).
  assert (He : e < 0) by lia.
  assert (Z.max (- e) 0 = - e) as -> by lia.
  assert (Z.max e 0 = 0) as -> by lia.
  change (2 ^ 0) with 1. rewrite Z.mul_1_r.
  set (P := 2 ^ (- e)).
  assert (HP : 0 < P) by (apply Z.pow_pos_nonneg; lia).
  pose proof (round_half_even_div_bounds (a * P) b) as [Hlo Hhi].
  split; [exact He|]. split.
  { apply round_half_even_div_nonneg; nia. }
  apply Z.div_le_upper_bound; [exact HP|].
  destruct (Z.eq_dec (a * P) (N * P * b)) as [Heq | Hne].
  - rewrite round_half_even_div_exact; [| exact Hb |].
    + rewrite Heq, Z.div_mul by lia. lia.
    + rewrite Heq. apply Z.mod_mul. lia.
  - assert (a * P / b < N * P); [|lia].
    apply Z.div_lt_upper_bound; [exact Hb|]. nia.
Qed.

Lemma int_of_float_mk_float_neg (s : bool) (m e : Z) :
  0 <= m -> e < 0 ->
  int_of_float (mk_float s (m, e)) = Ok (cond_Zopp s (m / 2 ^ (- e))).
Proof.
  intros Hm He. unfold mk_float. destruct m as [|p|p]; try lia.
  - cbn. destruct s; reflexivity.
  - destruct (Z.eqb_spec (Z.pos p) (2 ^ 53)) as [E | NE];
      cbn [int_of_float].
    + change (Z.pos (Z.to_pos (2 ^ 52))) with (2 ^ 52). rewrite E.
      f_equal. f_equal.
      replace (- e) with (1 + - (e + 1)) by lia.
      rewrite (Z.pow_add_r 2 1) by lia.
      change (2 ^ 53) with (2 ^ 1 * 2 ^ 52).
      rewrite Z.div_mul_cancel_l; [| apply Z.pow_nonzero; lia | lia].
      destruct (Z.leb_spec 0 (e + 1)); [|reflexivity].
      assert (e + 1 = 0) as -> by lia. reflexivity.
    + assert ((0 <=? e) = false) as -> by lia. reflexivity.
Qed.

(** [int(a / b)] of a quotient of magnitude at most [N]. *)
Lemma int_true_div_bounded (a b N : Z) :
  b <> 0 -> Z.abs a <= N * Z.abs b -> N < 2 ^ 52 ->
  exists x f,
    int_true_div a b = Ok x /\ int_of_float x = Ok f /\ Z.abs f <= N.
Proof.
  intros Hb Ha HN. unfold int_true_div.
  destruct (Z.eqb_spec b 0); [contradiction|].
  assert (overflows a b = false) as ->.
  { apply overflows_false. pose proof DBL_OVF_large.
    assert (2 ^ 52 < 2 ^ 1000) by reflexivity. nia. }
  pose proof (nearest_binary64_le (Z.abs a) (Z.abs b) N ltac:(lia) ltac:(lia) HN)
    as H.
  destruct (nearest_binary64 (Z.abs a) (Z.abs b)) as [m e].
  destruct H as (He & Hm & Hdiv).
  eexists. eexists. split; [reflexivity|].
  rewrite int_of_float_mk_float_neg by assumption.
  split; [reflexivity|].
  assert (0 <= m / 2 ^ (- e)).
  { apply Z.div_pos; [exact Hm | apply Z.pow_pos_nonneg; lia]. }
  destruct (xorb (a <? 0) (b <? 0)); cbn [cond_Zopp]; lia.
Qed.

(** *** Truncating a quotient below [2^(k+1)]

    The float nearest to [a / b] has [52 - k] bits after the point, more
    than the denominator has, so it lies on the same side of every integer
    as [a / b]. *)

Lemma nearest_binary64_trunc_below (a b k : Z) :
  0 <= k <= 51 -> 0 < b < 2 ^ (52 - k) -> 0 <= a < 2 ^ (k + 1) * b ->
  let '(m, e) := nearest_binary64 a b in
  e < 0 /\ 0 <= m /\ m / 2 ^ (- e) = a / b.
Proof.
  intros Hk Hb Ha. unfold nearest_binary64.
  pose proof (floor_log2_ratio_below a b k ltac:(lia) ltac:(lia) Ha) as HF.
  set (e := Z.max (floor_log2_ratio a b - 52) (- 1074)).
  assert (He : e <= k - 52) by lia.
  assert (Z.max (- e) 0 = - e) as -> by lia.
  assert (Z.max e 0 = 0) as -> by lia.
  change (2 ^ 0) with 1. rewrite Z.mul_1_r.
  set (P := 2 ^ (- e)).
  assert (HP : 2 ^ (52 - k) <= P) by (apply Z.pow_le_mono_r; lia).
  assert (HbP : b < P) by lia.
  pose proof (round_half_even_div_bounds (a * P) b) as [Hlo Hhi].
  assert (Hq : a / b * P <= a * P / b).
  { apply Z.div_le_lower_bound; [lia|].
    pose proof (Z.mul_div_le a b ltac:(lia)). nia. }
  split; [lia|]. split.
  { pose proof (Z.div_pos a b ltac:(lia) ltac:(lia)). nia. }
  symmetry.
  apply Z.div_unique with (r := round_half_even_div (a * P) b - P * (a / b));
    [|lia].
  left. split; [lia|].
  destruct (Z.eq_dec (a mod b) 0) as [Hr | Hr].
  - assert (Hab : a = b * (a / b)).
    { pose proof (Z.div_mod a b ltac:(lia)). lia. }
    rewrite round_half_even_div_exact; [| lia |].
    + rewrite Hab at 1.
      replace (b * (a / b) * P) with (a / b * P * b) by ring.
      rewrite Z.div_mul by lia. lia.
    + rewrite Hab. replace (b * (a / b) * P) with (a / b * P * b) by ring.
      apply Z.mod_mul. lia.
  - assert (a * P / b < (a / b + 1) * P - 1); [|lia].
    apply Z.div_lt_upper_bound; [lia|].
    pose proof (Z.div_mod a b ltac:(lia)) as Hdm.
    pose proof (Z.mod_pos_bound a b ltac:(lia)) as Hmb.
    nia.
Qed.

Lemma int_true_div_trunc_below (a b k : Z) :
  0 <= k <= 51 -> 0 < b < 2 ^ (52 - k) -> 0 <= a < 2 ^ (k + 1) * b ->
  exists x, int_true_div a b = Ok x /\ int_of_float x = Ok (a / b).
Proof.
  intros Hk Hb Ha. unfold int_true_div.
  assert ((b =? 0) = false) as -> by lia.
  assert (overflows a b = false) as ->.
  { apply overflows_false. pose proof DBL_OVF_large.
    assert (2 ^ (k + 1) <= 2 ^ 52) by (apply Z.pow_le_mono_r; lia).
    assert (2 ^ 52 < 2 ^ 1000) by reflexivity. nia. }
  eexists. split; [reflexivity|].
  assert ((a <? 0) = false) as -> by lia.
  assert ((b <? 0) = false) as -> by lia.
  rewrite !Z.abs_eq by lia. cbn [xorb].
  pose proof (nearest_binary64_trunc_below a b k Hk Hb Ha) as H.
  destruct (nearest_binary64 a b) as [m e]. destruct H as (He & Hm & Hdiv).
  rewrite int_of_float_mk_float_neg by assumption.
  cbn [cond_Zopp]. rewrite Hdiv. reflexivity.
Qed.

End Arithmetic.

(** * The render *)

Section Display.

Variable self : ProgressTracker.

Lemma float_of_int_seconds (z : Z) :
  overflows z 1 = false -> float_of_int z = Ok (seconds z).
Proof. intros H. unfold float_of_int, seconds. rewrite H. reflexivity. Qed.

Lemma overflows_small (z : Z) : Z.abs z < 2 ^ 1000 -> overflows z 1 = false.
Proof.
  intros H. apply overflows_false. pose proof DBL_OVF_large. lia.
Qed.

Lemma float_mul_int_small (x : float) (z : Z) :
  Z.abs z < 2 ^ 1000 -> float_mul_int x z = Ok (float_mul x (seconds z)).
Proof.
  intros H. unfold float_mul_int.
  rewrite float_of_int_seconds by (apply overflows_small; exact H).
  reflexivity.
Qed.

Lemma float_div_int_ok (x : float) (z : Z) :
  z <> 0 -> overflows z 1 = false ->
  float_div_int x z = Ok (SFdiv prec emax x (seconds z)).
Proof.
  intros Hz H. unfold float_div_int.
  pose proof (float_of_int_seconds z H) as E. rewrite E. cbn [bind].
  unfold float_div. rewrite (float_of_int_nonzero z _ Hz E). reflexivity.
Qed.

Lemma overflows_bar_ratio :
  overflows (bar_length * current_step self) (total_steps self) = false ->
  overflows (current_step self) (total_steps self) = false.
Proof.
  rewrite !overflows_false. unfold bar_length. lia.
Qed.

(** [percent] *)

Lemma percent_ok :
  total_steps self <> 0 ->
  overflows (current_step self) (total_steps self) = false ->
  exists pct, percent self = Ok pct.
Proof.
  intros Hts H. unfold percent, int_true_div.
  destruct (Z.eqb_spec (total_steps self) 0); [contradiction|]. rewrite H. cbn [bind].
  rewrite float_mul_int_small by (cbn; lia). eauto.
Qed.

(** [eta_str] *)

Lemma eta_str_absent (elapsed : float) :
  current_step self <= 0 -> eta_str self elapsed = Ok "".
Proof.
  intros H. unfold eta_str.
  destruct (Z.ltb_spec 0 (current_step self)); [lia | reflexivity].
Qed.

Lemma eta_str_present (elapsed : float) :
  0 < current_step self ->
  overflows (current_step self) 1 = false ->
  overflows (total_steps self - current_step self) 1 = false ->
  exists avg_time_per_step estimated_remaining minutes,
    float_div_int elapsed (current_step self) = Ok avg_time_per_step /\
    float_mul_int avg_time_per_step (total_steps self - current_step self)
      = Ok estimated_remaining /\
    float_div_int estimated_remaining 60 = Ok minutes /\
    eta_str self elapsed = Ok (" | ETA: " ++ format_f 1 minutes ++ "min").
Proof.
  intros Hpos H1 H2. unfold eta_str.
  destruct (Z.ltb_spec 0 (current_step self)); [|lia].
  rewrite (float_div_int_ok elapsed (current_step self)) by (lia || assumption).
  cbn [bind]. unfold float_mul_int at 1 2.
  rewrite (float_of_int_seconds (total_steps self - current_step self) H2). cbn [bind].
  rewrite !float_div_int_ok by (lia || (apply overflows_small; cbn; lia)).
  cbn [bind]. do 3 eexists. repeat split; reflexivity.
Qed.

Lemma eta_str_overflow (elapsed : float) :
  0 < current_step self ->
  overflows (current_step self) 1 = true \/
  overflows (total_steps self - current_step self) 1 = true ->
  eta_str self elapsed = Raise OverflowError.
Proof.
  intros Hpos H. unfold eta_str.
  destruct (Z.ltb_spec 0 (current_step self)); [|lia].
  destruct (overflows (current_step self) 1) eqn:E1.
  - unfold float_div_int, float_of_int. rewrite E1. reflexivity.
  - destruct H as [H | H]; [discriminate|].
    rewrite (float_div_int_ok elapsed (current_step self)) by (lia || assumption).
    cbn [bind]. unfold float_mul_int, float_of_int. rewrite H. reflexivity.
Qed.

(** [filled] *)

Lemma filled_ok :
  total_steps self <> 0 ->
  overflows (bar_length * current_step self) (total_steps self) = false ->
  exists f, filled self = Ok f.
Proof.
  intros Hts H. unfold filled, int_true_div.
  destruct (Z.eqb_spec (total_steps self) 0); [contradiction|]. rewrite H. cbn [bind].
  pose proof (nearest_binary64_nonneg
                (Z.abs (bar_length * current_step self))
                (Z.abs (total_steps self)) ltac:(lia) ltac:(lia)) as Hm.
  destruct (nearest_binary64 _ _) as [m e]. cbn [fst] in Hm.
  apply int_of_float_mk_float. exact Hm.
Qed.



(** The bar and the line *)

Lemma str_repeat_inv (g : string) (n : Z) (text : string) :
  str_repeat g n = Ok text -> text = str_mul g n.
Proof.
  unfold str_repeat. destruct (_ || _); [discriminate|].
  destruct (_ <? _); [discriminate|]. intros H. apply Ok_inj in H. auto.
Qed.


Lemma str_repeat_small (g : string) (n : Z) :
  Z.abs n <= 2 ^ 21 -> str_repeat g n = Ok (str_mul g n).
Proof.
  intros H. unfold str_repeat, sys_maxsize.
  assert (2 ^ 21 < 2 ^ 62) by reflexivity.
  assert (2 * 2 ^ 62 = 2 ^ 63) by reflexivity.
  destruct (Z.ltb_spec n (- (2 ^ 63 - 1) - 1)); [lia|].
  destruct (Z.ltb_spec (2 ^ 63 - 1) n); [lia|]. cbn [orb].
  destruct (Z.ltb_spec (2 ^ 63 - 1) (2 * n)); [lia | reflexivity].
Qed.

Lemma bar_text_inv (f : Z) (b : string) : bar_text f = Ok b -> b = bar f.
Proof.
  unfold bar_text, bar.
  destruct (str_repeat FILLED f) as [full|] eqn:E1; [|discriminate].
  destruct (str_repeat EMPTY (bar_length - f)) as [rest|] eqn:E2;
    [|discriminate].
  cbn [bind]. intros H. apply Ok_inj in H. subst b.
  rewrite (str_repeat_inv _ _ _ E1), (str_repeat_inv _ _ _ E2). reflexivity.
Qed.


Lemma bar_text_small (f : Z) :
  Z.abs f <= BAR_SAFE -> bar_text f = Ok (bar f).
Proof.
  intros H. unfold BAR_SAFE in H. unfold bar_text, bar, bar_length.
  assert (2 ^ 20 + 30 < 2 ^ 21) by reflexivity.
  rewrite !str_repeat_small by lia. reflexivity.
Qed.

Lemma format_int_inv (z : Z) (text : string) :
  format_int z = Ok text -> text = str_of_int z /\ Z.abs z < INT_MAX_STR.
Proof.
  unfold format_int. destruct (Z.leb_spec INT_MAX_STR (Z.abs z));
    [discriminate|].
  intros E. apply Ok_inj in E. auto.
Qed.


Lemma format_int_ok (z : Z) :
  Z.abs z < INT_MAX_STR -> format_int z = Ok (str_of_int z).
Proof.
  intros H. unfold format_int.
  destruct (Z.leb_spec INT_MAX_STR (Z.abs z)); [lia | reflexivity].
Qed.

Lemma progress_text_inv (b : string) (pct : float) (eta line : string) :
  progress_text self b pct eta = Ok line ->
  line = progress_line self b pct eta.
Proof.
  unfold progress_text, progress_line.
  destruct (format_int (current_step self)) as [step|] eqn:E1; [|discriminate].
  destruct (format_int (total_steps self)) as [total|] eqn:E2; [|discriminate].
  cbn [bind]. intros H. apply Ok_inj in H. subst line.
  destruct (format_int_inv _ _ E1) as [-> _].
  destruct (format_int_inv _ _ E2) as [-> _]. reflexivity.
Qed.


Lemma progress_text_ok (b : string) (pct : float) (eta : string) :
  Z.abs (current_step self) < INT_MAX_STR ->
  Z.abs (total_steps self) < INT_MAX_STR ->
  progress_text self b pct eta = Ok (progress_line self b pct eta).
Proof.
  intros H1 H2. unfold progress_text.
  rewrite !format_int_ok by assumption. reflexivity.
Qed.

(** The fill count of a bounded quotient. *)
Lemma filled_bounded (N : Z) :
  total_steps self <> 0 ->
  Z.abs (bar_length * current_step self) <= N * Z.abs (total_steps self) ->
  N < 2 ^ 52 ->
  exists f, filled self = Ok f /\ Z.abs f <= N.
Proof.
  intros Hts Hb HN. unfold filled.
  destruct (int_true_div_bounded _ _ N Hts Hb HN) as (x & f & -> & Hf & Hle).
  exists f. split; [exact Hf | exact Hle].
Qed.

(** [_display], from its result back to its locals. *)
Lemma display_inv (now : float) (evs : list io_event) :
  total_steps self <> 0 -> _display self now = Ok evs ->
  exists pct eta f,
    percent self = Ok pct /\
    eta_str self (float_sub now (start_time self)) = Ok eta /\
    filled self = Ok f /\
    evs = ([Write (progress_line self (bar f) pct eta); Flush]
             ++ completion_newline self)%list.
Proof.
  intros Hts. unfold _display.
  destruct (Z.eqb_spec (total_steps self) 0); [contradiction|].
  destruct (percent self) as [pct|]; cbn [bind]; [|discriminate].
  destruct (eta_str self _) as [eta|]; cbn [bind]; [|discriminate].
  destruct (filled self) as [f|]; cbn [bind]; [|discriminate].
  destruct (bar_text f) as [b|] eqn:Eb; cbn [bind]; [|discriminate].
  destruct (progress_text self b pct eta) as [line|] eqn:El; cbn [bind];
    [|discriminate].
  intros H. apply Ok_inj in H. subst evs.
  rewrite (progress_text_inv _ _ _ _ El), (bar_text_inv _ _ Eb). eauto 10.
Qed.

(** Within the floats the three numbers of the line are computed. *)
Lemma display_floats_ok (now : float) :
  total_steps self <> 0 -> in_double_range self = true ->
  exists pct eta f,
    percent self = Ok pct /\
    eta_str self (float_sub now (start_time self)) = Ok eta /\
    filled self = Ok f.
Proof.
  intros Hts. unfold in_double_range.
  destruct (Z.eqb_spec (total_steps self) 0); [contradiction|]. cbn [orb].
  rewrite andb_true_iff, negb_true_iff. intros [Hbar Heta].
  destruct (percent_ok Hts (overflows_bar_ratio Hbar)) as [pct Hpct].
  destruct (filled_ok Hts Hbar) as [f Hf].
  assert (exists eta, eta_str self (float_sub now (start_time self)) = Ok eta)
    as [eta Heta'].
  { destruct (Z.ltb_spec 0 (current_step self)) as [Hpos | Hneg]; cbn [negb orb] in Heta.
    - rewrite andb_true_iff, !negb_true_iff in Heta. destruct Heta as [H1 H2].
      destruct (eta_str_present (float_sub now (start_time self)) Hpos H1 H2)
        as (? & ? & ? & _ & _ & _ & E). eauto.
    - rewrite eta_str_absent by exact Hneg. eauto. }
  exists pct, eta, f. repeat split; assumption.
Qed.

Lemma in_render_range_inv :
  total_steps self <> 0 -> in_render_range self = true ->
  in_double_range self = true /\
  Z.abs (bar_length * current_step self) <= BAR_SAFE * Z.abs (total_steps self) /\
  Z.abs (current_step self) < INT_MAX_STR /\
  Z.abs (total_steps self) < INT_MAX_STR.
Proof.
  intros Hts. unfold in_render_range.
  destruct (Z.eqb_spec (total_steps self) 0); [contradiction|]. cbn [orb].
  rewrite !andb_true_iff. intros [[[Hr Hbar] Hcs] Hts'].
  apply Z.leb_le in Hbar. apply Z.ltb_lt in Hcs. apply Z.ltb_lt in Hts'. auto.
Qed.

(** Within the range of [in_render_range] the render is made. *)
Lemma display_ok (now : float) :
  total_steps self <> 0 -> in_render_range self = true ->
  exists pct eta f,
    percent self = Ok pct /\
    eta_str self (float_sub now (start_time self)) = Ok eta /\
    filled self = Ok f /\
    _display self now =
      Ok ([Write (progress_line self (bar f) pct eta); Flush]
            ++ completion_newline self)%list.
Proof.
  intros Hts Hrange.
  destruct (in_render_range_inv Hts Hrange) as (Hr & Hbar & Hcs & Hts').
  destruct (display_floats_ok now Hts Hr) as (pct & eta & f & Hp & He & Hf).
  destruct (filled_bounded BAR_SAFE Hts Hbar) as (f' & Hf' & Hle);
    [reflexivity|].
  rewrite Hf in Hf'. apply Ok_inj in Hf'. subst f'.
  exists pct, eta, f. repeat split; try assumption.
  unfold _display.
  destruct (Z.eqb_spec (total_steps self) 0); [contradiction|].
  rewrite Hp, He, Hf. cbn [bind]. rewrite (bar_text_small f Hle). cbn [bind].
  rewrite progress_text_ok by assumption. reflexivity.
Qed.


Lemma display_zero_total (now : float) :
  total_steps self = 0 -> _display self now = Ok [].
Proof.
  intros H. unfold _display. rewrite H. reflexivity.
Qed.


(** A bar product beyond [sys.maxsize] raises, whatever the floats. *)
Lemma display_bar_overflow (now : float) (f : Z) :
  total_steps self <> 0 -> in_double_range self = true ->
  filled self = Ok f -> sys_maxsize < f ->
  _display self now = Raise OverflowError.
Proof.
  intros Hts Hr Hf Hbig.
  destruct (display_floats_ok now Hts Hr) as (pct & eta & f' & Hp & He & Hf').
  unfold _display.
  destruct (Z.eqb_spec (total_steps self) 0); [contradiction|].
  rewrite Hp, He, Hf. cbn [bind]. unfold bar_text, str_repeat.
  destruct (Z.ltb_spec sys_maxsize f) as [_ | Hle]; [|lia].
  rewrite orb_true_r. reflexivity.
Qed.

(** Integers of [10^4300] and more are not formatted. *)
Lemma display_digit_limit (now : float) :
  total_steps self <> 0 ->
  Z.abs (bar_length * current_step self) <= BAR_SAFE * Z.abs (total_steps self) ->
  in_double_range self = true ->
  INT_MAX_STR <= Z.abs (current_step self) \/
  INT_MAX_STR <= Z.abs (total_steps self) ->
  _display self now = Raise ValueError.
Proof.
  intros Hts Hbar Hr Hbig.
  destruct (display_floats_ok now Hts Hr) as (pct & eta & f & Hp & He & Hf).
  destruct (filled_bounded BAR_SAFE Hts Hbar) as (f' & Hf' & Hle);
    [reflexivity|].
  rewrite Hf in Hf'. apply Ok_inj in Hf'. subst f'.
  unfold _display.
  destruct (Z.eqb_spec (total_steps self) 0); [contradiction|].
  rewrite Hp, He, Hf. cbn [bind]. rewrite (bar_text_small f Hle). cbn [bind].
  unfold progress_text, format_int.
  destruct (Z.leb_spec INT_MAX_STR (Z.abs (current_step self))) as [|Hcs];
    [reflexivity|].
  destruct (Z.leb_spec INT_MAX_STR (Z.abs (total_steps self))) as [|Hts'];
    [reflexivity | lia].
Qed.

End Display.

(** * update *)

Lemma set_current_step_frame (self : ProgressTracker) (k : Z) :
  total_steps (set_current_step self k) = total_steps self /\
  description (set_current_step self k) = description self /\
  start_time (set_current_step self k) = start_time self.
Proof. repeat split. Qed.

Lemma update_tracker (self : ProgressTracker) (step : option Z) (now : float) :
  fst (update self step now) =
  set_current_step self
    match step with Some k => k | None => current_step self + 1 end.
Proof. destruct step; reflexivity. Qed.

Lemma update_render (self : ProgressTracker) (step : option Z) (now : float) :
  snd (update self step now) = _display (fst (update self step now)) now.
Proof. destruct step; reflexivity. Qed.

Lemma run_updates_cons (self : ProgressTracker) (step : option Z) (now : float)
    (rest : list (option Z * float)) :
  run_updates self ((step, now) :: rest) =
  (fst (run_updates (fst (update self step now)) rest),
   snd (update self step now) :: snd (run_updates (fst (update self step now)) rest)).
Proof.
  cbn [run_updates]. destruct (update self step now) as [self' r].
  cbn [fst snd]. destruct (run_updates self' rest). reflexivity.
Qed.

Lemma run_updates_app (self : ProgressTracker)
    (calls1 calls2 : list (option Z * float)) :
  fst (run_updates self (calls1 ++ calls2)%list) =
  fst (run_updates (fst (run_updates self calls1)) calls2).
Proof.
  revert self. induction calls1 as [|[step now] rest IH]; intros self.
  - reflexivity.
  - cbn [app]. rewrite !run_updates_cons. cbn [fst]. apply IH.
Qed.

Lemma run_updates_frame (self : ProgressTracker) (calls : list (option Z * float)) :
  total_steps (fst (run_updates self calls)) = total_steps self /\
  description (fst (run_updates self calls)) = description self /\
  start_time (fst (run_updates self calls)) = start_time self.
Proof.
  revert self. induction calls as [|[step now] rest IH]; intros self.
  - repeat split.
  - rewrite run_updates_cons. cbn [fst].
    destruct (IH (fst (update self step now))) as (H1 & H2 & H3).
    rewrite H1, H2, H3, update_tracker. apply set_current_step_frame.
Qed.

Lemma run_updates_no_step (self : ProgressTracker) (nows : list float) :
  current_step (fst (run_updates self (map no_step nows))) =
  current_step self + Z.of_nat (List.length nows).
Proof.
  revert self. induction nows as [|now rest IH]; intros self.
  - cbn. lia.
  - cbn [map List.length]. unfold no_step at 1. rewrite run_updates_cons. cbn [fst].
    rewrite IH, update_tracker. cbn [set_current_step current_step]. lia.
Qed.

Lemma steps_seen_no_step (self : ProgressTracker) (nows : list float) :
  steps_seen self (map no_step nows) =
  map (fun i => current_step self + Z.of_nat i) (seq 1 (List.length nows)).
Proof.
  revert self. induction nows as [|now rest IH]; intros self.
  - reflexivity.
  - cbn [map List.length seq steps_seen no_step]. fold (no_step now).
    rewrite update_tracker. cbn [set_current_step current_step]. f_equal.
    rewrite IH. cbn [set_current_step current_step].
    rewrite <- (seq_shift _ 1), map_map. apply map_ext. intros i. lia.
Qed.

Lemma update_zero_total (self : ProgressTracker) (step : option Z) (now : float) :
  total_steps self = 0 -> snd (update self step now) = Ok [].
Proof.
  intros H. rewrite update_render. apply display_zero_total.
  rewrite update_tracker. exact H.
Qed.

(** * The bar *)

Lemma len_app (s1 s2 : string) : len (s1 ++ s2) = (len s1 + len s2)%nat.
Proof.
  induction s1 as [|c s1 IH]; [reflexivity|].
  cbn [append len]. rewrite IH. destruct (_ =? _)%N; reflexivity.
Qed.

Lemma len_repeat_glyph (g : string) (n : nat) :
  len g = 1%nat -> len (repeat_string g n) = n.
Proof.
  intros Hg. induction n as [|n IH]; [reflexivity|].
  cbn [repeat_string]. rewrite len_app, Hg, IH. reflexivity.
Qed.

Lemma len_FILLED : len FILLED = 1%nat.
Proof. reflexivity. Qed.

Lemma len_EMPTY : len EMPTY = 1%nat.
Proof. reflexivity. Qed.

(** Nothing clamps the bar: its width is what the two products give. *)
Lemma len_bar (f : Z) :
  len (bar f) = (Z.to_nat f + Z.to_nat (bar_length - f))%nat.
Proof.
  unfold bar, str_mul.
  rewrite len_app, !len_repeat_glyph by (exact len_FILLED || exact len_EMPTY).
  reflexivity.
Qed.

Lemma filled_floor (self : ProgressTracker) :
  0 < total_steps self < 2 ^ 48 ->
  0 <= current_step self <= total_steps self ->
  filled self = Ok (bar_length * current_step self / total_steps self).
Proof.
  intros Hts Hcs. unfold filled.
  destruct (int_true_div_trunc (bar_length * current_step self) (total_steps self))
    as (x & -> & Hx); [exact Hts | unfold bar_length; lia | exact Hx].
Qed.

(** The same beyond the total, as long as the quotient stays below [2^21]
    and the total below [2^31]. *)
Lemma filled_floor_beyond (self : ProgressTracker) :
  0 < total_steps self < 2 ^ 31 ->
  0 <= bar_length * current_step self <= 2 ^ 20 * total_steps self ->
  filled self = Ok (bar_length * current_step self / total_steps self).
Proof.
  intros Hts Hcs. unfold filled.
  destruct (int_true_div_trunc_below (bar_length * current_step self)
              (total_steps self) 20) as (x & -> & Hx).
  - lia.
  - change (2 ^ (52 - 20)) with (2 ^ 32). assert (2 ^ 31 < 2 ^ 32) by reflexivity.
    lia.
  - change (2 ^ (20 + 1)) with (2 * 2 ^ 20). lia.
  - exact Hx.
Qed.

(** The width of the bar, whatever the fill count. *)
Lemma len_bar_wider (f : Z) :
  len (bar f) = Z.to_nat (Z.max f 0 + Z.max (bar_length - f) 0) /\
  ((30 < len (bar f))%nat <-> f < 0 \/ 30 < f).
Proof.
  rewrite len_bar. unfold bar_length. split; lia.
Qed.

Lemma in_double_range_small (self : ProgressTracker) :
  Z.abs (total_steps self) < 2 ^ 1000 ->
  Z.abs (current_step self) < 2 ^ 1000 ->
  in_double_range self = true.
Proof.
  intros Hts Hcs. unfold in_double_range.
  destruct (Z.eqb_spec (total_steps self) 0) as [|Hnz]; [reflexivity|].
  cbn [orb]. pose proof DBL_OVF_large as HD.
  assert (H2 : 2 ^ 1000 * 32 < DBL_OVF) by reflexivity.
  assert (overflows (bar_length * current_step self) (total_steps self) = false) as ->.
  { apply overflows_false. unfold bar_length. nia. }
  assert (overflows (current_step self) 1 = false) as ->.
  { apply overflows_false. lia. }
  assert (overflows (total_steps self - current_step self) 1 = false) as ->.
  { apply overflows_false. lia. }
  cbn. apply orb_true_r.
Qed.

(** A tracker that has made no step is within the floats. *)
Lemma in_double_range_at_zero (self : ProgressTracker) :
  current_step self = 0 -> in_double_range self = true.
Proof.
  intros Hcs. unfold in_double_range. rewrite Hcs.
  destruct (Z.eqb_spec (total_steps self) 0) as [|Hts]; [reflexivity|].
  assert (overflows (bar_length * 0) (total_steps self) = false) as ->.
  { apply overflows_false. pose proof DBL_OVF_large. cbn [Z.mul Z.abs]. nia. }
  reflexivity.
Qed.

Lemma INT_MAX_STR_eq : INT_MAX_STR = 10 ^ 4300.
Proof. vm_compute. reflexivity. Qed.

Lemma INT_MAX_STR_large : DBL_OVF < INT_MAX_STR.
Proof. vm_compute. reflexivity. Qed.

Lemma in_render_range_small (self : ProgressTracker) :
  Z.abs (total_steps self) < 2 ^ 1000 ->
  Z.abs (current_step self) < 2 ^ 1000 ->
  Z.abs (bar_length * current_step self) <= BAR_SAFE * Z.abs (total_steps self) ->
  in_render_range self = true.
Proof.
  intros Hts Hcs Hbar. unfold in_render_range.
  rewrite (in_double_range_small self Hts Hcs).
  pose proof DBL_OVF_large. pose proof INT_MAX_STR_large.
  destruct (Z.leb_spec (Z.abs (bar_length * current_step self))
              (BAR_SAFE * Z.abs (total_steps self))); [|lia].
  destruct (Z.ltb_spec (Z.abs (current_step self)) INT_MAX_STR); [|lia].
  destruct (Z.ltb_spec (Z.abs (total_steps self)) INT_MAX_STR); [|lia].
  apply orb_true_r.
Qed.

(** The usual case: a step between 0 and the total. *)
Lemma in_render_range_within (self : ProgressTracker) :
  0 < total_steps self < 2 ^ 1000 ->
  0 <= current_step self <= total_steps self ->
  in_render_range self = true.
Proof.
  intros Hts Hcs. apply in_render_range_small; try lia.
  unfold bar_length, BAR_SAFE. assert (30 < 2 ^ 20) by reflexivity. nia.
Qed.

(** The render that [track_progress] forces on exit. *)
Lemma final_update_ok (tracker : ProgressTracker) (now : float) :
  - INT_MAX_STR < total_steps tracker < DBL_OVF ->
  exists evs,
    update tracker (Some (total_steps tracker)) now =
      (set_current_step tracker (total_steps tracker), Ok evs) /\
    (total_steps tracker <> 0 -> exists line, evs = [Write line; Flush; Write LF]) /\
    (total_steps tracker = 0 -> evs = []).
Proof.
  intros Hlt. unfold update.
  set (self := set_current_step tracker (total_steps tracker)).
  destruct (Z.eq_dec (total_steps tracker) 0) as [Hz | Hnz].
  - exists []. rewrite (display_zero_total self now Hz).
    split; [reflexivity|]. split; [contradiction | reflexivity].
  - assert (Hd : in_double_range self = true).
    { unfold in_double_range, self. cbn [total_steps current_step set_current_step].
      destruct (Z.eqb_spec (total_steps tracker) 0); [contradiction|]. cbn [orb].
      pose proof DBL_OVF_large as HD. assert (H2 : 30 < 2 ^ 1000) by reflexivity.
      assert (overflows (bar_length * total_steps tracker) (total_steps tracker)
              = false) as ->.
      { apply overflows_false. unfold bar_length. nia. }
      cbn [negb andb]. destruct (Z.ltb_spec 0 (total_steps tracker)); [|reflexivity].
      assert (overflows (total_steps tracker) 1 = false) as ->.
      { apply overflows_false. lia. }
      rewrite Z.sub_diag. reflexivity. }
    assert (Hr : in_render_range self = true).
    { unfold in_render_range. rewrite Hd. unfold self.
      cbn [total_steps current_step set_current_step].
      pose proof INT_MAX_STR_large.
      assert (30 < 2 ^ 20) by reflexivity.
      destruct (Z.leb_spec (Z.abs (bar_length * total_steps tracker))
                  (BAR_SAFE * Z.abs (total_steps tracker)));
        [|unfold bar_length, BAR_SAFE in *; lia].
      destruct (Z.ltb_spec (Z.abs (total_steps tracker)) INT_MAX_STR); [|lia].
      apply orb_true_r. }
    destruct (display_ok self now Hnz Hr) as (pct & eta & f & _ & _ & _ & E).
    rewrite E. eexists. split; [reflexivity|]. split; [|contradiction].
    intros _. unfold completion_newline, self.
    cbn [total_steps current_step set_current_step]. rewrite Z.leb_refl.
    eexists. reflexivity.
Qed.

(** * The claims *)

(** C6: [update(step=k)] sets [current_step] to exactly [k], for every integer
    [k] (zero, negative or above [total_steps]) and whatever [current_step]
    was before, a decrease included, also at the end of any sequence of
    earlier calls: no bound is enforced.  The assignment stands whether or
    not the render that follows raises. *)
Theorem update_step_sets_current_step
    (self : ProgressTracker) (k : Z) (now : float) :
  current_step (fst (update self (Some k) now)) = k /\
  forall earlier : list (option Z * float),
    current_step (fst (run_updates self (earlier ++ [(Some k, now)])%list)) = k.
Proof.
  split; [reflexivity|].
  intros earlier. rewrite run_updates_app, run_updates_cons. reflexivity.
Qed.

(** C10: a call of [update], with or without a step, leaves [total_steps],
    [description] and [start_time] as they were, and so does any sequence of
    calls; [current_step] is the only field that changes. *)
Theorem update_changes_current_step_only
    (self : ProgressTracker) (step : option Z) (now : float) :
  (total_steps (fst (update self step now)) = total_steps self /\
   description (fst (update self step now)) = description self /\
   start_time (fst (update self step now)) = start_time self) /\
  fst (update self step now) =
    set_current_step self (current_step (fst (update self step now))) /\
  forall calls : list (option Z * float),
    total_steps (fst (run_updates self calls)) = total_steps self /\
    description (fst (run_updates self calls)) = description self /\
    start_time (fst (run_updates self calls)) = start_time self.
Proof.
  split; [|split].
  - rewrite update_tracker. apply set_current_step_frame.
  - rewrite update_tracker. reflexivity.
  - intros calls. apply run_updates_frame.
Qed.

(** C5: after [n] calls of [update()] without a step on a freshly constructed
    tracker, [current_step] is [n], the values seen being [1, 2, ..., n]
    (for every [total_steps], the positive ones in particular).  With
    [total_steps = 4] four such calls see 1, 2, 3, 4, the first three
    renders end without a newline and the fourth is followed by one. *)
Theorem update_without_step_counts_calls :
  (forall (ts : Z) (desc : string) (t0 : float) (nows : list float),
      let tracker := __init__ ts desc t0 in
      current_step (fst (run_updates tracker (map no_step nows)))
        = Z.of_nat (List.length nows) /\
      steps_seen tracker (map no_step nows)
        = map Z.of_nat (seq 1 (List.length nows))) /\
  (forall (desc : string) (t0 t1 t2 t3 t4 : float),
      let tracker := __init__ 4 desc t0 in
      let calls := map no_step [t1; t2; t3; t4] in
      steps_seen tracker calls = [1; 2; 3; 4] /\
      exists l1 l2 l3 l4,
        snd (run_updates tracker calls) =
        [Ok [Write l1; Flush]; Ok [Write l2; Flush]; Ok [Write l3; Flush];
         Ok [Write l4; Flush; Write LF]]).
Proof.
  split.
  - intros ts desc t0 nows tracker. split.
    + unfold tracker. rewrite run_updates_no_step. reflexivity.
    + unfold tracker. rewrite steps_seen_no_step. reflexivity.
  - intros desc t0 t1 t2 t3 t4 tracker calls. split; [reflexivity|].
    unfold calls, tracker. cbn [map]. unfold no_step.
    rewrite !run_updates_cons. cbn [snd fst run_updates].
    rewrite !update_render, !update_tracker.
    cbn [set_current_step __init__ current_step total_steps description start_time].
    repeat match goal with
    | |- context [_display ?s ?t] =>
        let E := fresh "E" in
        destruct (display_ok s t ltac:(discriminate) eq_refl)
          as (? & ? & ? & _ & _ & _ & E);
        rewrite E; clear E
    end.
    do 4 eexists. reflexivity.
Qed.

(** C7: with [total_steps = 0] no call of [update], with or without a step,
    writes anything: the render returns before it divides, and the call does
    not raise. *)
Theorem zero_total_steps_writes_nothing
    (desc : string) (t0 : float) (calls : list (option Z * float)) :
  Forall (fun r => r = Ok []) (snd (run_updates (__init__ 0 desc t0) calls)).
Proof.
  assert (H : forall self, total_steps self = 0 ->
            Forall (fun r => r = Ok []) (snd (run_updates self calls))).
  { induction calls as [|[step now] rest IH]; intros self Hz.
    - constructor.
    - rewrite run_updates_cons. cbn [snd]. constructor.
      + apply update_zero_total. exact Hz.
      + apply IH. rewrite update_tracker. exact Hz. }
  apply H. reflexivity.
Qed.


(** C8: in a render with [total_steps > 0] the ETA suffix is absent when
    [current_step = 0], and present when [current_step > 0], where it is
    [(elapsed / current_step) * (total_steps - current_step)], divided by 60
    and formatted with [.1f].  With [total_steps = 100] a single
    [update(step=50)] renders 50%, 15 filled glyphs of 30 and an ETA. *)
Theorem eta_suffix :
  (forall (self : ProgressTracker) (now : float) (evs : list io_event),
      0 < total_steps self ->
      _display self now = Ok evs ->
      let elapsed := float_sub now (start_time self) in
      exists pct f,
        percent self = Ok pct /\ filled self = Ok f /\
        (current_step self = 0 ->
           evs = ([Write (progress_line self (bar f) pct ""); Flush]
                    ++ completion_newline self)%list) /\
        (0 < current_step self ->
           exists avg_time_per_step estimated_remaining minutes,
             float_div_int elapsed (current_step self) = Ok avg_time_per_step /\
             float_mul_int avg_time_per_step
               (total_steps self - current_step self) = Ok estimated_remaining /\
             float_div_int estimated_remaining 60 = Ok minutes /\
             evs = ([Write (progress_line self (bar f) pct
                              (" | ETA: " ++ format_f 1 minutes ++ "min"));
                     Flush] ++ completion_newline self)%list)) /\
  (forall (t0 now : float),
      exists minutes,
        snd (update (__init__ 100 "Progress" t0) (Some 50) now) =
        Ok [Write (CR ++ "Progress: [" ++ str_mul FILLED 15 ++ str_mul EMPTY 15
                      ++ "] 50% (50/100) | ETA: " ++ format_f 1 minutes ++ "min");
            Flush]).
Proof.
  split.
  - intros self now evs Hts H elapsed.
    destruct (display_inv self now evs ltac:(lia) H)
      as (pct & eta & f & Hpct & Heta & Hf & ->).
    exists pct, f. split; [exact Hpct|]. split; [exact Hf|]. split.
    + intros Hz. rewrite eta_str_absent in Heta by lia.
      apply Ok_inj in Heta. subst eta. reflexivity.
    + intros Hpos. fold elapsed in Heta.
      destruct (overflows (current_step self) 1) eqn:E1.
      { rewrite eta_str_overflow in Heta by auto. discriminate. }
      destruct (overflows (total_steps self - current_step self) 1) eqn:E2.
      { rewrite eta_str_overflow in Heta by auto. discriminate. }
      destruct (eta_str_present self elapsed Hpos E1 E2)
        as (avg & est & minutes & H1 & H2 & H3 & H4).
      rewrite H4 in Heta. apply Ok_inj in Heta. subst eta.
      exists avg, est, minutes. repeat split; assumption.
  - intros t0 now. rewrite update_render, update_tracker.
    set (self := set_current_step (__init__ 100 "Progress" t0) 50).
    destruct (eta_str_present self (float_sub now (start_time self))
                eq_refl eq_refl eq_refl) as (avg & est & minutes & _ & _ & _ & E).
    exists minutes. unfold _display.
    change (total_steps self =? 0) with false. cbv iota.
    rewrite E. reflexivity.
Qed.

(** C9: when the body of the [with] statement ends normally with
    [current_step < total_steps], the exit performs one
    [update(total_steps)]: the tracker and the output are those of that one
    call after the body, so [current_step] ends at [total_steps], and for
    [total_steps] between [- INT_MAX_STR] and [DBL_OVF] the call returns,
    having written the completion render and its newline (nothing when
    [total_steps] is 0).
    When the body ends with [current_step >= total_steps] the exit changes
    and writes nothing. *)
Theorem track_progress_normal_exit
    (ts : Z) (desc : string) (t0 t1 : float) (body : with_body)
    (tracker : ProgressTracker) (out : list io_event) :
  body (__init__ ts desc t0) = (tracker, out, Ok tt) ->
  (current_step tracker < total_steps tracker ->
     let forced := update tracker (Some (total_steps tracker)) t1 in
     current_step (fst forced) = total_steps tracker /\
     track_progress ts desc t0 body t1 =
       match snd forced with
       | Ok evs => (fst forced, (out ++ evs)%list, Ok tt)
       | Raise e => (fst forced, out, Raise e)
       end /\
     (- INT_MAX_STR < total_steps tracker < DBL_OVF ->
        exists evs,
          track_progress ts desc t0 body t1 =
            (set_current_step tracker (total_steps tracker),
             (out ++ evs)%list, Ok tt) /\
          (total_steps tracker <> 0 ->
             exists line, evs = [Write line; Flush; Write LF]) /\
          (total_steps tracker = 0 -> evs = []))) /\
  (total_steps tracker <= current_step tracker ->
     track_progress ts desc t0 body t1 = (tracker, out, Ok tt)).
Proof.
  intros Hbody. split.
  - intros Hlt forced. split; [reflexivity|].
    assert (Htp : track_progress ts desc t0 body t1 =
                  match snd forced with
                  | Ok evs => (fst forced, (out ++ evs)%list, Ok tt)
                  | Raise e => (fst forced, out, Raise e)
                  end).
    { unfold track_progress. rewrite Hbody.
      destruct (Z.ltb_spec (current_step tracker) (total_steps tracker)); [|lia].
      fold forced. destruct forced as [tracker' [evs | e]]; reflexivity. }
    split; [exact Htp|].
    intros Hovf. rewrite Htp. unfold forced.
    destruct (final_update_ok tracker t1 Hovf) as (evs & -> & Hrender & Hzero).
    cbn [fst snd]. exists evs. split; [reflexivity|]. split; assumption.
  - intros Hge. unfold track_progress. rewrite Hbody.
    destruct (Z.ltb_spec (current_step tracker) (total_steps tracker)); [lia|].
    reflexivity.
Qed.

(** C1, amended: when the body raises with [current_step < total_steps] and
    [total_steps] is between [- INT_MAX_STR] and [DBL_OVF], the exit still
    performs
    [update(total_steps)], which sets [current_step] to [total_steps] and,
    unless [total_steps] is 0, writes the completion render and its newline;
    the exception of the body then propagates as it is. *)
Theorem track_progress_fault_exit
    (ts : Z) (desc : string) (t0 t1 : float) (body : with_body)
    (tracker : ProgressTracker) (out : list io_event) (e : exn) :
  body (__init__ ts desc t0) = (tracker, out, Raise e) ->
  current_step tracker < total_steps tracker ->
  - INT_MAX_STR < total_steps tracker < DBL_OVF ->
  exists evs,
    update tracker (Some (total_steps tracker)) t1 =
      (set_current_step tracker (total_steps tracker), Ok evs) /\
    track_progress ts desc t0 body t1 =
      (set_current_step tracker (total_steps tracker), (out ++ evs)%list, Raise e) /\
    (total_steps tracker <> 0 -> exists line, evs = [Write line; Flush; Write LF]) /\
    (total_steps tracker = 0 -> evs = []).
Proof.
  intros Hbody Hlt Hovf.
  destruct (final_update_ok tracker t1 Hovf) as (evs & Hup & Hrender & Hzero).
  exists evs. split; [exact Hup|]. split; [|split; assumption].
  unfold track_progress. rewrite Hbody.
  destruct (Z.ltb_spec (current_step tracker) (total_steps tracker)); [|lia].
  rewrite Hup. reflexivity.
Qed.


(** C3, amended: with [total_steps > 0] and [current_step >= 0], and
    either [current_step <= total_steps < 2^48] or
    [30 * current_step <= 2^20 * total_steps] with [total_steps < 2^31], the
    fill count is [floor (30 * current_step / total_steps)] and the bar of
    the line that is written is that many filled glyphs followed by
    [max (30 - filled) 0] empty ones.  It is 30 glyphs wide when
    [filled <= 30], as for every [current_step <= total_steps], and
    [filled] glyphs wide beyond.  For any fill count the width is
    [max filled 0 + max (30 - filled) 0], above 30 exactly when
    [filled < 0] or [filled > 30]. *)
Theorem bar_fill_within_total (self : ProgressTracker) (now : float) :
  0 < total_steps self -> 0 <= current_step self ->
  (current_step self <= total_steps self /\ total_steps self < 2 ^ 48) \/
  (30 * current_step self <= 2 ^ 20 * total_steps self /\
   total_steps self < 2 ^ 31) ->
  let f := 30 * current_step self / total_steps self in
  filled self = Ok f /\
  0 <= f /\
  bar f = str_mul FILLED f ++ str_mul EMPTY (30 - f) /\
  len (str_mul FILLED f) = Z.to_nat f /\
  len (str_mul EMPTY (30 - f)) = Z.to_nat (Z.max (30 - f) 0) /\
  len (bar f) = Z.to_nat (Z.max f 30) /\
  (current_step self <= total_steps self -> f <= 30) /\
  (forall g, len (bar g) = Z.to_nat (Z.max g 0 + Z.max (30 - g) 0) /\
             ((30 < len (bar g))%nat <-> g < 0 \/ 30 < g)) /\
  exists pct eta,
    _display self now =
      Ok ([Write (progress_line self (bar f) pct eta); Flush]
            ++ completion_newline self)%list.
Proof.
  intros Hts Hcs Hrange f.
  assert (Hf : 0 <= f) by (apply Z.div_pos; lia).
  assert (Hfilled : filled self = Ok f).
  { destruct Hrange as [[Hle Hlt] | [Hle Hlt]].
    - apply filled_floor; lia.
    - apply filled_floor_beyond; unfold bar_length; lia. }
  split; [exact Hfilled|]. split; [exact Hf|]. split; [reflexivity|].
  split; [apply len_repeat_glyph, len_FILLED|].
  split; [unfold str_mul; rewrite len_repeat_glyph by exact len_EMPTY; lia|].
  split; [rewrite len_bar; unfold bar_length; lia|].
  split; [intros Hle; apply Z.div_le_upper_bound; lia|].
  split; [exact len_bar_wider|].
  assert (Hr : in_render_range self = true).
  { assert (2 ^ 48 < 2 ^ 1000) by reflexivity.
    assert (2 ^ 31 < 2 ^ 48) by reflexivity.
    assert (30 < 2 ^ 20) by reflexivity.
    assert (2 ^ 20 * 2 ^ 31 < 30 * 2 ^ 1000) by reflexivity.
    apply in_render_range_small; unfold bar_length, BAR_SAFE;
      destruct Hrange as [[Hle Hlt] | [Hle Hlt]]; nia. }
  destruct (display_ok self now ltac:(lia) Hr) as (pct & eta & f' & _ & _ & Hf' & E).
  rewrite Hfilled in Hf'. apply Ok_inj in Hf'. subst f'. eauto.
Qed.

(** * Cross-checks of the float operations *)

(** True division and [float()] agree with the division and the
    normalisation of [SpecFloat] on the samples. *)
Example int_true_div_agrees_with_SpecFloat :
  map (fun ab => int_true_div (fst ab) (snd ab)) division_samples =
  map (fun ab => Ok (SF_int_div (fst ab) (snd ab))) division_samples.
Proof. vm_compute. reflexivity. Qed.

Example float_of_int_agrees_with_SpecFloat :
  map float_of_int conversion_samples =
  map (fun z => Ok (binary_normalize prec emax z 0 false)) conversion_samples.
Proof. vm_compute. reflexivity. Qed.

(** The largest float is the conversion of [DBL_OVF - 1], and [DBL_OVF]
    itself is refused. *)
Example float_of_int_at_the_threshold :
  float_of_int (DBL_OVF - 1) = Ok (SFmax_float prec emax) /\
  float_of_int DBL_OVF = Raise OverflowError /\
  int_true_div (2 ^ 1024) 1 = Raise OverflowError /\
  int_true_div 1 0 = Raise ZeroDivisionError.
Proof. vm_compute. repeat split. Qed.

Example format_f_samples :
  format_f 1 (seconds 0) = "0.0" /\
  bind (int_true_div (- 4) 100) (fun x => Ok (format_f 1 x)) = Ok "-0.0" /\
  bind (int_true_div 1 2) (fun x => Ok (format_f 0 x)) = Ok "0" /\
  bind (int_true_div 3 2) (fun x => Ok (format_f 0 x)) = Ok "2" /\
  bind (int_true_div 5 2) (fun x => Ok (format_f 0 x)) = Ok "2" /\
  bind (int_true_div 35 100) (fun x => Ok (format_f 1 x)) = Ok "0.3" /\
  bind (int_true_div 100 3) (fun x => Ok (format_f 1 x)) = Ok "33.3" /\
  format_f 1 (S754_infinity false) = "inf".
Proof. vm_compute. repeat split. Qed.

(** * The [.1f] format *)

Lemma append_assoc (s1 s2 s3 : string) : (s1 ++ s2) ++ s3 = s1 ++ (s2 ++ s3).
Proof. induction s1 as [|c s1 IH]; [reflexivity|]. cbn. rewrite IH. reflexivity. Qed.

Lemma str_of_int_digit (r : Z) :
  0 <= r < 10 -> exists c, str_of_int r = String c EmptyString.
Proof.
  intros H.
  assert (r = 0 \/ r = 1 \/ r = 2 \/ r = 3 \/ r = 4 \/ r = 5 \/ r = 6 \/
          r = 7 \/ r = 8 \/ r = 9) as Hr by lia.
  repeat (destruct Hr as [-> | Hr]; [eexists; reflexivity|]).
  subst r. eexists. reflexivity.
Qed.

Lemma fixed_digits_one_decimal (n : Z) :
  exists c, fixed_digits 1 n = str_of_int (n / 10) ++ "." ++ String c EmptyString.
Proof.
  unfold fixed_digits. change (10 ^ Z.of_nat 1) with 10.
  destruct (str_of_int_digit (n mod 10)) as [c ->].
  { apply Z.mod_pos_bound. lia. }
  exists c. reflexivity.
Qed.

(** A finite value formatted with [.1f] ends with a point and one digit. *)
Lemma format_f_one_decimal (x : float) :
  is_finite x = true ->
  exists whole c, format_f 1 x = whole ++ "." ++ String c EmptyString.
Proof.
  destruct x as [s | s | | s m e]; try discriminate; intros _; cbn [format_f].
  - destruct (fixed_digits_one_decimal 0) as [c ->].
    exists (sign_string s ++ str_of_int (0 / 10)), c. rewrite append_assoc. reflexivity.
  - destruct (fixed_digits_one_decimal (scaled_decimal 1 m e)) as [c ->].
    exists (sign_string s ++ str_of_int (scaled_decimal 1 m e / 10)), c.
    rewrite append_assoc. reflexivity.
Qed.

(** * Renders outside of [0 <= current_step <= total_steps] *)

(** A negative step: [int()] truncates toward zero where the floor goes
    down, and the bar is 34 empty glyphs. *)
Example bar_negative_step :
  filled (tracker_at 7 (- 1)) = Ok (- 4) /\
  30 * (- 1) / 7 = - 5 /\
  bar (- 4) = str_mul EMPTY 34 /\
  len (bar (- 4)) = 34%nat.
Proof. vm_compute. repeat split. Qed.

(** A total of [2^60]: the quotient [30 * (2^60 - 1) / 2^60] rounds to the
    float 30.0, one more than its floor. *)
Example bar_rounding_large_total :
  current_step (tracker_at (2 ^ 60) (2 ^ 60 - 1))
    < total_steps (tracker_at (2 ^ 60) (2 ^ 60 - 1)) /\
  filled (tracker_at (2 ^ 60) (2 ^ 60 - 1)) = Ok 30 /\
  30 * (2 ^ 60 - 1) / 2 ^ 60 = 29.
Proof. vm_compute. repeat split. Qed.

(** Zero and negative totals, and a step far beyond the total, render or
    stay silent without raising. *)
Example update_degraded_output :
  snd (update (__init__ 0 "Progress" (seconds 0)) (Some (- 1)) (seconds 1)) = Ok [] /\
  snd (update (__init__ (- 5) "Progress" (seconds 0)) (Some (- 7)) (seconds 1)) =
    Ok [Write (CR ++ "Progress: [" ++ str_mul FILLED 42 ++ "] 140% (-7/-5)"); Flush] /\
  snd (update (__init__ 10 "Progress" (seconds 0)) (Some 20) (seconds 60)) =
    Ok [Write (CR ++ "Progress: [" ++ str_mul FILLED 60
                  ++ "] 200% (20/10) | ETA: -0.5min"); Flush; Write LF].
Proof. vm_compute. repeat split. Qed.

(** * Where the claims as stated stop holding, and instances of the theorems *)

(** C1 as stated fails for [total_steps = 2^1024]: the body raises
    [Exception "boom"] with [current_step = 0 < total_steps], the forced
    [update(total_steps)] raises [OverflowError] when it converts
    [current_step] to a float, nothing is written, and [OverflowError] is
    what leaves the [with] statement. *)
Lemma fault_replaced_by_overflow :
  failing_body "boom" (__init__ (2 ^ 1024) "Progress" (seconds 0)) =
    (__init__ (2 ^ 1024) "Progress" (seconds 0), [], Raise (Exception "boom")) /\
  current_step (__init__ (2 ^ 1024) "Progress" (seconds 0))
    < total_steps (__init__ (2 ^ 1024) "Progress" (seconds 0)) /\
  track_progress (2 ^ 1024) "Progress" (seconds 0) (failing_body "boom") (seconds 1) =
    (tracker_at (2 ^ 1024) (2 ^ 1024), [], Raise OverflowError) /\
  Raise OverflowError <> Raise (A := unit) (Exception "boom").
Proof.
  split; [reflexivity|]. split; [reflexivity|]. split; [|discriminate].
  vm_compute. reflexivity.
Qed.

(** The amended C1 at [total_steps = 3] with a body that raises at once:
    the completion render is written and the fault of the body is what
    leaves the [with] statement. *)
Lemma track_progress_fault_exit_witness :
  failing_body "boom" (__init__ 3 "Progress" (seconds 0)) =
    (tracker_at 3 0, [], Raise (Exception "boom")) /\
  current_step (tracker_at 3 0) < total_steps (tracker_at 3 0) /\
  - INT_MAX_STR < total_steps (tracker_at 3 0) < DBL_OVF /\
  exists line,
    track_progress 3 "Progress" (seconds 0) (failing_body "boom") (seconds 1) =
      (tracker_at 3 3, [Write line; Flush; Write LF], Raise (Exception "boom")).
Proof.
  assert (H1 : failing_body "boom" (__init__ 3 "Progress" (seconds 0)) =
               (tracker_at 3 0, [], Raise (Exception "boom"))) by reflexivity.
  assert (H2 : current_step (tracker_at 3 0) < total_steps (tracker_at 3 0))
    by reflexivity.
  assert (H3 : - INT_MAX_STR < total_steps (tracker_at 3 0) < DBL_OVF)
    by (split; vm_compute; reflexivity).
  split; [exact H1|]. split; [exact H2|]. split; [exact H3|].
  destruct (track_progress_fault_exit 3 "Progress" (seconds 0) (seconds 1)
              (failing_body "boom") (tracker_at 3 0) [] (Exception "boom")
              H1 H2 H3) as (evs & _ & Htp & Hrender & _).
  destruct (Hrender ltac:(discriminate)) as [line Hline].
  exists line. rewrite Htp, Hline. reflexivity.
Defined.


(** The bar product of [total_steps = 1] and [update(step=2^62)] does not
    fit a machine index. *)
Example update_raises_beyond_the_index :
  in_double_range (tracker_at 1 (2 ^ 62)) = true /\
  filled (tracker_at 1 (2 ^ 62)) = Ok (30 * 2 ^ 62) /\
  snd (update (tracker_at 1 0) (Some (2 ^ 62)) (seconds 1)) = Raise OverflowError.
Proof. vm_compute. repeat split. Qed.

(** A total of [10^4300], or of [- 10^4300], is not formatted. *)
Example update_raises_beyond_the_digits :
  in_double_range (tracker_at INT_MAX_STR 0) = true /\
  snd (update (tracker_at INT_MAX_STR 0) (Some 0) (seconds 1)) = Raise ValueError /\
  snd (update (tracker_at (- INT_MAX_STR) 0) (Some 0) (seconds 1))
    = Raise ValueError.
Proof.
  pose proof INT_MAX_STR_large as HI. pose proof DBL_OVF_large as HD.
  split; [apply in_double_range_at_zero; reflexivity|].
  split; rewrite update_render, update_tracker;
    apply display_digit_limit;
    cbn [total_steps current_step set_current_step tracker_at __init__];
    try (apply in_double_range_at_zero; reflexivity);
    unfold bar_length, BAR_SAFE; lia.
Qed.


(** C3 as stated fails for [total_steps = 10] and [current_step = 20]: the
    bar is 60 filled glyphs and no empty one, 60 wide and not 30. *)
Lemma bar_wider_than_30 :
  0 < total_steps (tracker_at 10 20) /\
  filled (tracker_at 10 20) = Ok 60 /\
  _display (tracker_at 10 20) (seconds 1) =
    Ok [Write (CR ++ "Progress: [" ++ bar 60 ++ "] 200% (20/10) | ETA: -0.0min");
        Flush; Write LF] /\
  bar 60 = str_mul FILLED 60 /\
  len (bar 60) = 60%nat.
Proof. vm_compute. repeat split. Qed.

(** The amended C3 at [total_steps = 10]: 15 filled glyphs of 30 at
    [current_step = 5], and 60 filled glyphs at [current_step = 20]. *)
Lemma bar_fill_within_total_witness :
  (0 < total_steps (tracker_at 10 5) /\ 0 <= current_step (tracker_at 10 5) /\
   current_step (tracker_at 10 5) <= total_steps (tracker_at 10 5) /\
   total_steps (tracker_at 10 5) < 2 ^ 48 /\
   filled (tracker_at 10 5) = Ok 15 /\
   len (str_mul FILLED 15) = 15%nat /\
   len (str_mul EMPTY (30 - 15)) = 15%nat /\
   len (bar 15) = 30%nat) /\
  (0 < total_steps (tracker_at 10 20) /\ 0 <= current_step (tracker_at 10 20) /\
   30 * current_step (tracker_at 10 20) <= 2 ^ 20 * total_steps (tracker_at 10 20) /\
   total_steps (tracker_at 10 20) < 2 ^ 31 /\
   filled (tracker_at 10 20) = Ok 60 /\
   len (str_mul EMPTY (30 - 60)) = 0%nat /\
   len (bar 60) = 60%nat).
Proof.
  split.
  - assert (H1 : 0 < total_steps (tracker_at 10 5)) by reflexivity.
    assert (H2 : 0 <= current_step (tracker_at 10 5)) by discriminate.
    assert (H3 : current_step (tracker_at 10 5) <= total_steps (tracker_at 10 5))
      by discriminate.
    assert (H4 : total_steps (tracker_at 10 5) < 2 ^ 48) by reflexivity.
    destruct (bar_fill_within_total (tracker_at 10 5) (seconds 1) H1 H2
                (or_introl (conj H3 H4)))
      as (Hf & _ & _ & Hl & He & Hb & _).
    repeat split; assumption.
  - assert (H1 : 0 < total_steps (tracker_at 10 20)) by reflexivity.
    assert (H2 : 0 <= current_step (tracker_at 10 20)) by discriminate.
    assert (H3 : 30 * current_step (tracker_at 10 20)
                 <= 2 ^ 20 * total_steps (tracker_at 10 20)) by discriminate.
    assert (H4 : total_steps (tracker_at 10 20) < 2 ^ 31) by reflexivity.
    destruct (bar_fill_within_total (tracker_at 10 20) (seconds 1) H1 H2
                (or_intror (conj H3 H4)))
      as (Hf & _ & _ & _ & He & Hb & _).
    repeat split; assumption.
Defined.


(** C8 at 50 of 100 steps, 30 seconds after the start: the ETA is half a
    minute. *)
Lemma eta_suffix_witness :
  0 < total_steps (tracker_at 100 50) /\
  _display (tracker_at 100 50) (seconds 30) =
    Ok [Write (CR ++ "Progress: [" ++ bar 15 ++ "] 50% (50/100) | ETA: 0.5min");
        Flush] /\
  0 < current_step (tracker_at 100 50) /\
  exists minutes,
    [Write (CR ++ "Progress: [" ++ bar 15 ++ "] 50% (50/100) | ETA: 0.5min"); Flush] =
    [Write (CR ++ "Progress: [" ++ bar 15 ++ "] 50% (50/100) | ETA: "
               ++ format_f 1 minutes ++ "min"); Flush].
Proof.
  assert (H1 : 0 < total_steps (tracker_at 100 50)) by reflexivity.
  assert (H2 : _display (tracker_at 100 50) (seconds 30) =
    Ok [Write (CR ++ "Progress: [" ++ bar 15 ++ "] 50% (50/100) | ETA: 0.5min");
        Flush]) by (vm_compute; reflexivity).
  assert (H3 : 0 < current_step (tracker_at 100 50)) by reflexivity.
  split; [exact H1|]. split; [exact H2|]. split; [exact H3|].
  destruct (proj1 eta_suffix (tracker_at 100 50) (seconds 30) _ H1 H2)
    as (pct & f & Hpct & Hf & _ & Hpresent).
  destruct (Hpresent H3) as (avg & est & minutes & _ & _ & _ & E).
  exists minutes. rewrite E. clear E Hpresent.
  assert (Ep : pct = seconds 50).
  { apply Ok_inj. rewrite <- Hpct. vm_compute. reflexivity. }
  assert (Ef : f = 15).
  { apply Ok_inj. rewrite <- Hf. vm_compute. reflexivity. }
  subst pct f. reflexivity.
Defined.

(** C9 with a body that calls [update()] once and ends: out of 4 steps the
    exit adds the completion render, out of 1 step it adds nothing. *)
Lemma track_progress_normal_exit_witness :
  (updating_body (seconds 1) (__init__ 4 "Progress" (seconds 0)) =
     (tracker_at 4 1,
      [Write (CR ++ "Progress: [" ++ bar 7 ++ "] 25% (1/4) | ETA: 0.1min"); Flush],
      Ok tt) /\
   current_step (tracker_at 4 1) < total_steps (tracker_at 4 1) /\
   - INT_MAX_STR < total_steps (tracker_at 4 1) < DBL_OVF /\
   exists line,
     track_progress 4 "Progress" (seconds 0) (updating_body (seconds 1)) (seconds 2) =
       (tracker_at 4 4,
        [Write (CR ++ "Progress: [" ++ bar 7 ++ "] 25% (1/4) | ETA: 0.1min"); Flush;
         Write line; Flush; Write LF], Ok tt)) /\
  (updating_body (seconds 1) (__init__ 1 "Progress" (seconds 0)) =
     (tracker_at 1 1,
      [Write (CR ++ "Progress: [" ++ bar 30 ++ "] 100% (1/1) | ETA: 0.0min"); Flush;
       Write LF],
      Ok tt) /\
   total_steps (tracker_at 1 1) <= current_step (tracker_at 1 1) /\
   track_progress 1 "Progress" (seconds 0) (updating_body (seconds 1)) (seconds 2) =
     (tracker_at 1 1,
      [Write (CR ++ "Progress: [" ++ bar 30 ++ "] 100% (1/1) | ETA: 0.0min"); Flush;
       Write LF],
      Ok tt)).
Proof.
  split.
  - assert (H1 : updating_body (seconds 1) (__init__ 4 "Progress" (seconds 0)) =
      (tracker_at 4 1,
       [Write (CR ++ "Progress: [" ++ bar 7 ++ "] 25% (1/4) | ETA: 0.1min"); Flush],
       Ok tt)) by (vm_compute; reflexivity).
    assert (H2 : current_step (tracker_at 4 1) < total_steps (tracker_at 4 1))
      by reflexivity.
    assert (H3 : - INT_MAX_STR < total_steps (tracker_at 4 1) < DBL_OVF)
      by (split; vm_compute; reflexivity).
    split; [exact H1|]. split; [exact H2|]. split; [exact H3|].
    destruct (track_progress_normal_exit 4 "Progress" (seconds 0) (seconds 2)
                (updating_body (seconds 1)) _ _ H1) as [Hforced _].
    destruct (Hforced H2) as (_ & _ & Hret).
    destruct (Hret H3) as (evs & Htp & Hrender & _).
    destruct (Hrender ltac:(discriminate)) as [line Hline].
    exists line. rewrite Htp, Hline. reflexivity.
  - assert (H1 : updating_body (seconds 1) (__init__ 1 "Progress" (seconds 0)) =
      (tracker_at 1 1,
       [Write (CR ++ "Progress: [" ++ bar 30 ++ "] 100% (1/1) | ETA: 0.0min"); Flush;
        Write LF],
       Ok tt)) by (vm_compute; reflexivity).
    assert (H2 : total_steps (tracker_at 1 1) <= current_step (tracker_at 1 1))
      by discriminate.
    split; [exact H1|]. split; [exact H2|].
    destruct (track_progress_normal_exit 1 "Progress" (seconds 0) (seconds 2)
                (updating_body (seconds 1)) _ _ H1) as [_ Hdone].
    exact (Hdone H2).
Defined.

(** * Further properties of the tracker *)

(** ** Exact quotients *)

Lemma floor_log2_ratio_multiple (c k a : Z) :
  0 <= k -> 2 ^ k <= c < 2 ^ (k + 1) -> 0 < a ->
  floor_log2_ratio (c * a) a = k.
Proof.
  intros Hk Hc Ha.
  assert (H2k : 0 < 2 ^ k) by (apply Z.pow_pos_nonneg; lia).
  destruct (Z.log2_spec a Ha) as [Ha1 Ha2].
  destruct (Z.log2_spec (c * a) ltac:(nia)) as [Hc1 Hc2].
  pose proof (Z.log2_nonneg a) as Hla.
  assert (Hlo : k + Z.log2 a <= Z.log2 (c * a)).
  { apply Z.log2_le_pow2; [nia|]. rewrite Z.pow_add_r by lia. nia. }
  assert (Hhi : Z.log2 (c * a) < k + Z.log2 a + 2).
  { apply Z.log2_lt_pow2; [nia|].
    replace (k + Z.log2 a + 2) with ((k + 1) + Z.succ (Z.log2 a)) by lia.
    rewrite Z.pow_add_r by lia.
    assert (0 < 2 ^ (k + 1)) by (apply Z.pow_pos_nonneg; lia). nia. }
  unfold floor_log2_ratio.
  destruct (Z.eq_dec (Z.log2 (c * a) - Z.log2 a) k) as [E | NE].
  - rewrite E. rewrite Z.max_l by lia. rewrite Z.max_r by lia.
    change (2 ^ 0) with 1.
    destruct (Z.leb_spec (a * 2 ^ k) (c * a * 1)); [reflexivity | nia].
  - assert (E : Z.log2 (c * a) - Z.log2 a = k + 1) by lia.
    rewrite E. rewrite Z.max_l by lia. rewrite Z.max_r by lia.
    change (2 ^ 0) with 1.
    destruct (Z.leb_spec (a * 2 ^ (k + 1)) (c * a * 1)); [nia | lia].
Qed.

Lemma nearest_binary64_multiple (c k a : Z) :
  0 <= k <= 52 -> 2 ^ k <= c < 2 ^ (k + 1) -> 0 < a ->
  nearest_binary64 (c * a) a = (c * 2 ^ (52 - k), k - 52).
Proof.
  intros Hk Hc Ha. unfold nearest_binary64.
  rewrite (floor_log2_ratio_multiple c k a) by lia.
  rewrite (Z.max_l (k - 52)) by lia.
  rewrite (Z.max_l (- (k - 52))) by lia.
  rewrite (Z.max_r (k - 52)) by lia.
  change (2 ^ 0) with 1. rewrite Z.mul_1_r.
  replace (- (k - 52)) with (52 - k) by lia.
  f_equal.
  replace (c * a * 2 ^ (52 - k)) with (c * 2 ^ (52 - k) * a) by ring.
  rewrite round_half_even_div_exact.
  - apply Z.div_mul. lia.
  - exact Ha.
  - apply Z.mod_mul. lia.
Qed.

Lemma int_true_div_multiple (c k a : Z) :
  0 <= k <= 52 -> 2 ^ k <= c < 2 ^ (k + 1) -> a <> 0 ->
  int_true_div (c * a) a = Ok (mk_float false (c * 2 ^ (52 - k), k - 52)).
Proof.
  intros Hk Hc Ha. unfold int_true_div.
  assert (H2k : 0 < 2 ^ k) by (apply Z.pow_pos_nonneg; lia).
  destruct (Z.eqb_spec a 0); [contradiction|].
  assert (overflows (c * a) a = false) as ->.
  { apply overflows_false. rewrite Z.abs_mul, (Z.abs_eq c) by lia.
    pose proof DBL_OVF_large.
    assert (c < 2 ^ 53).
    { apply Z.lt_le_trans with (2 ^ (k + 1)); [lia|].
      apply Z.pow_le_mono_r; lia. }
    assert (2 ^ 53 < 2 ^ 1000) by reflexivity. nia. }
  assert (xorb (c * a <? 0) (a <? 0) = false) as ->.
  { destruct (Z.ltb_spec (c * a) 0), (Z.ltb_spec a 0); try reflexivity; nia. }
  rewrite Z.abs_mul, (Z.abs_eq c) by lia.
  rewrite (nearest_binary64_multiple c k (Z.abs a)) by lia.
  reflexivity.
Qed.

(** ** The render of a completed tracker *)

Lemma percent_complete (self : ProgressTracker) :
  total_steps self <> 0 -> current_step self = total_steps self ->
  percent self = Ok (seconds 100).
Proof.
  intros Hts Hcs. unfold percent. rewrite Hcs.
  replace (total_steps self) with (1 * total_steps self) at 1 by lia.
  rewrite (int_true_div_multiple 1 0) by (cbn; lia).
  reflexivity.
Qed.

Lemma filled_complete (self : ProgressTracker) :
  total_steps self <> 0 -> current_step self = total_steps self ->
  filled self = Ok 30.
Proof.
  intros Hts Hcs. unfold filled, bar_length. rewrite Hcs.
  rewrite (int_true_div_multiple 30 4) by (cbn; lia).
  reflexivity.
Qed.

(** X1: the render of a tracker that is exactly complete
    ([current_step = total_steps], nonzero, above [- INT_MAX_STR] and below
    [DBL_OVF]) shows a bar of 30 filled glyphs and no empty one, 100%, and
    is followed by the newline: the "100% when done" of [track_progress]. *)
Theorem complete_render_is_full (self : ProgressTracker) (now : float) :
  total_steps self <> 0 ->
  current_step self = total_steps self ->
  - INT_MAX_STR < total_steps self < DBL_OVF ->
  exists eta,
    _display self now =
    Ok [Write (CR ++ description self ++ ": [" ++ str_mul FILLED 30 ++ "] 100% ("
                  ++ str_of_int (total_steps self) ++ "/"
                  ++ str_of_int (total_steps self) ++ ")" ++ eta);
        Flush; Write LF].
Proof.
  intros Hts Hcs Hovf.
  destruct (final_update_ok self now Hovf) as (evs & Hup & _ & _).
  assert (Hself : set_current_step self (total_steps self) = self).
  { destruct self as [t c d s]. cbn in Hcs |- *. rewrite Hcs. reflexivity. }
  unfold update in Hup. rewrite Hself in Hup.
  assert (Hd : _display self now = Ok evs) by congruence.
  destruct (display_inv self now evs Hts Hd) as (pct & eta & f & Hp & _ & Hf & ->).
  rewrite (percent_complete self Hts Hcs) in Hp. apply Ok_inj in Hp. subst pct.
  rewrite (filled_complete self Hts Hcs) in Hf. apply Ok_inj in Hf. subst f.
  exists eta. rewrite Hd. unfold completion_newline, progress_line.
  rewrite Hcs, Z.leb_refl. reflexivity.
Qed.

(** ** What [track_progress] leaves behind *)

(** X2: whatever the body did to the tracker and however it ended, after
    the [with] statement [current_step] is the larger of the body's
    [current_step] and [total_steps], hence at least [total_steps], and the
    other fields are those the body left. *)
Theorem track_progress_leaves_tracker_complete
    (ts : Z) (desc : string) (t0 t1 : float) (body : with_body) :
  let tracker := fst (fst (body (__init__ ts desc t0))) in
  let final := fst (fst (track_progress ts desc t0 body t1)) in
  final = set_current_step tracker
            (Z.max (current_step tracker) (total_steps tracker)) /\
  total_steps final <= current_step final.
Proof.
  intros tracker final.
  assert (H : final = set_current_step tracker
                (Z.max (current_step tracker) (total_steps tracker))).
  { unfold final, tracker, track_progress.
    destruct (body (__init__ ts desc t0)) as [[tr out] exit]. cbn [fst].
    destruct (Z.ltb_spec (current_step tr) (total_steps tr)) as [Hlt | Hge].
    - rewrite Z.max_r by lia. unfold update.
      destruct (_display _ t1); reflexivity.
    - rewrite Z.max_l by lia. destruct tr; reflexivity. }
  split; [exact H|]. rewrite H. cbn [set_current_step total_steps current_step].
  lia.
Qed.

(** X3: [track_progress] does not swallow an exception and does not drop
    output.  When the body leaves [current_step >= total_steps], the
    statement gives back the tracker, the output and the exit of the body
    as they are.  Otherwise the exit makes [update(total_steps)]: if that
    call returns, the output is the one of the body followed by its render
    and the statement ends as the body did; if it raises, its exception is
    what leaves the statement and nothing more is written.  In every case
    the output starts with the output of the body, and a body that raised
    never results in a normal end. *)
Theorem track_progress_keeps_exit_and_output
    (ts : Z) (desc : string) (t0 t1 : float) (body : with_body)
    (tracker : ProgressTracker) (out : list io_event) (exit : result unit) :
  body (__init__ ts desc t0) = (tracker, out, exit) ->
  (total_steps tracker <= current_step tracker ->
     track_progress ts desc t0 body t1 = (tracker, out, exit)) /\
  (current_step tracker < total_steps tracker ->
     forall evs,
       snd (update tracker (Some (total_steps tracker)) t1) = Ok evs ->
       snd (fst (track_progress ts desc t0 body t1)) = (out ++ evs)%list /\
       snd (track_progress ts desc t0 body t1) = exit) /\
  (current_step tracker < total_steps tracker ->
     forall e,
       snd (update tracker (Some (total_steps tracker)) t1) = Raise e ->
       snd (fst (track_progress ts desc t0 body t1)) = out /\
       snd (track_progress ts desc t0 body t1) = Raise e) /\
  (exists evs,
     snd (fst (track_progress ts desc t0 body t1)) = (out ++ evs)%list) /\
  (raises exit = true ->
     raises (snd (track_progress ts desc t0 body t1)) = true).
Proof.
  intros Hbody. unfold track_progress. rewrite Hbody.
  destruct (Z.ltb_spec (current_step tracker) (total_steps tracker))
    as [Hlt | Hge].
  - destruct (update tracker (Some (total_steps tracker)) t1) as [tr' [evs | e]];
      cbn [fst snd].
    + split; [lia|]. split.
      { intros _ evs' E. apply Ok_inj in E. subst evs'. split; reflexivity. }
      split; [intros _ e E; discriminate|].
      split; [exists evs; reflexivity | trivial].
    + split; [lia|]. split; [intros _ evs E; discriminate|]. split.
      { intros _ e' E. injection E as <-. split; reflexivity. }
      split; [exists []; rewrite app_nil_r; reflexivity | reflexivity].
  - split; [reflexivity|]. split; [lia|]. split; [lia|]. cbn [fst snd].
    split; [exists []; rewrite app_nil_r; reflexivity | trivial].
Qed.

(** ** The loop of the docstring *)

Lemma count_newlines_app (evs1 evs2 : list io_event) :
  count_newlines (evs1 ++ evs2)%list
  = (count_newlines evs1 + count_newlines evs2)%nat.
Proof. unfold count_newlines. rewrite filter_app, length_app. reflexivity. Qed.

Lemma count_newlines_render (self : ProgressTracker) (b : string) (pct : float)
    (eta : string) :
  count_newlines ([Write (progress_line self b pct eta); Flush]
                    ++ completion_newline self)%list
  = if total_steps self <=? current_step self then 1%nat else 0%nat.
Proof.
  unfold completion_newline.
  destruct (total_steps self <=? current_step self); reflexivity.
Qed.

Lemma set_current_step_same (self : ProgressTracker) :
  set_current_step self (current_step self) = self.
Proof. destruct self; reflexivity. Qed.

Lemma loop_body_run (nows : list float) (tracker : ProgressTracker) :
  0 < total_steps tracker < 2 ^ 1000 ->
  0 <= current_step tracker ->
  current_step tracker + Z.of_nat (List.length nows) <= total_steps tracker ->
  exists out,
    loop_body nows tracker =
      (set_current_step tracker
         (current_step tracker + Z.of_nat (List.length nows)), out, Ok tt) /\
    (current_step tracker + Z.of_nat (List.length nows) < total_steps tracker ->
       count_newlines out = 0%nat) /\
    (current_step tracker < total_steps tracker ->
     current_step tracker + Z.of_nat (List.length nows) = total_steps tracker ->
       count_newlines out = 1%nat /\ exists pre, out = (pre ++ [Write LF])%list).
Proof.
  revert tracker. induction nows as [|now rest IH]; intros tracker Hts Hcs Hn.
  - exists []. cbn [loop_body List.length Z.of_nat].
    rewrite Z.add_0_r, set_current_step_same.
    split; [reflexivity|]. split; [reflexivity | lia].
  - cbn [List.length] in Hn |- *. rewrite Nat2Z.inj_succ in Hn |- *.
    cbn [loop_body]. unfold update.
    set (tr1 := set_current_step tracker (current_step tracker + 1)).
    assert (Hr : in_render_range tr1 = true).
    { apply in_render_range_within; unfold tr1;
        cbn [set_current_step total_steps current_step]; lia. }
    destruct (display_ok tr1 now ltac:(cbn; lia) Hr)
      as (pct & eta & f & _ & _ & _ & ->).
    destruct (IH tr1) as (out & Hrun & Hzero & Hone);
      try (unfold tr1; cbn [set_current_step total_steps current_step]; lia).
    rewrite Hrun.
    replace (current_step tracker + Z.succ (Z.of_nat (List.length rest)))
      with (current_step tracker + 1 + Z.of_nat (List.length rest)) by lia.
    unfold tr1 in Hzero, Hone |- *.
    cbn [set_current_step total_steps current_step] in Hzero, Hone |- *.
    eexists. split; [reflexivity|].
    rewrite count_newlines_app, count_newlines_render.
    cbn [set_current_step total_steps current_step].
    split.
    + intros Hlt.
      destruct (Z.leb_spec (total_steps tracker) (current_step tracker + 1)); [lia|].
      rewrite Hzero by lia. reflexivity.
    + intros Hlt Heq.
      destruct (Z.leb_spec (total_steps tracker) (current_step tracker + 1))
        as [Hdone | Hmore].
      * destruct rest as [|now' rest']; [|cbn [List.length] in Heq; lia].
        cbn [loop_body] in Hrun.
        assert (out = []) as -> by congruence.
        split; [reflexivity|].
        unfold completion_newline.
        cbn [set_current_step total_steps current_step].
        destruct (Z.leb_spec (total_steps tracker) (current_step tracker + 1)); [|lia].
        eexists [_; _]. reflexivity.
      * destruct Hone as [Hc [pre ->]]; try lia.
        split; [rewrite Hc; reflexivity|].
        eexists (_ ++ pre)%list. rewrite app_assoc. reflexivity.
Qed.

(** X4: the usage of the docstring.  With [0 < total_steps < 2^1000] and a
    body that calls [update()] [n <= total_steps] times, the [with]
    statement ends normally with [current_step = total_steps], and its
    output has exactly one newline write, which is its last event: it comes
    from the last call of the loop when [n = total_steps] and from the
    forced update otherwise. *)
Theorem track_progress_loop_one_newline
    (ts : Z) (desc : string) (t0 t1 : float) (nows : list float) :
  0 < ts < 2 ^ 1000 ->
  Z.of_nat (List.length nows) <= ts ->
  exists pre,
    track_progress ts desc t0 (loop_body nows) t1 =
      (set_current_step (__init__ ts desc t0) ts, (pre ++ [Write LF])%list, Ok tt) /\
    count_newlines pre = 0%nat.
Proof.
  intros Hts Hn.
  destruct (loop_body_run nows (__init__ ts desc t0)) as (out & Hrun & Hzero & Hone);
    try (cbn [__init__ total_steps current_step]; lia).
  cbn [__init__ total_steps current_step] in Hzero, Hone.
  rewrite Z.add_0_l in Hrun, Hzero, Hone.
  unfold track_progress. rewrite Hrun.
  set (tr := set_current_step (__init__ ts desc t0) (Z.of_nat (List.length nows))).
  change (current_step tr) with (Z.of_nat (List.length nows)).
  change (total_steps tr) with ts.
  destruct (Z.ltb_spec (Z.of_nat (List.length nows)) ts) as [Hlt | Hge].
  - destruct (final_update_ok tr t1) as (evs & Hup & Hrender & _).
    { change (total_steps tr) with ts. pose proof DBL_OVF_large.
      assert (0 < INT_MAX_STR) by reflexivity. lia. }
    change (total_steps tr) with ts in Hup, Hrender. rewrite Hup.
    destruct Hrender as [line ->]; [lia|].
    exists (out ++ [Write line; Flush])%list. split.
    + rewrite <- app_assoc. reflexivity.
    + rewrite count_newlines_app, (Hzero Hlt).
      unfold update in Hup.
      destruct (display_inv (set_current_step tr ts) t1 [Write line; Flush; Write LF])
        as (pct & eta & f & _ & _ & _ & E); [cbn; lia | congruence |].
      injection E as ->. reflexivity.
  - assert (Heq : Z.of_nat (List.length nows) = ts) by lia.
    destruct (Hone ltac:(lia) Heq) as [Hc [pre ->]].
    exists pre. split; [unfold tr; rewrite Heq; reflexivity|].
    rewrite count_newlines_app in Hc. cbn in Hc. lia.
Qed.

(** ** The width and the fill of the bar *)

(** X5: the bar of a render is never narrower than 30 glyphs, and it is
    exactly 30 wide when, and only when, [filled] lies between 0 and 30. *)
Theorem render_bar_at_least_30
    (self : ProgressTracker) (now : float) (evs : list io_event) :
  total_steps self <> 0 ->
  _display self now = Ok evs ->
  exists f pct eta,
    filled self = Ok f /\
    evs = ([Write (progress_line self (bar f) pct eta); Flush]
             ++ completion_newline self)%list /\
    (30 <= len (bar f))%nat /\
    (len (bar f) = 30%nat <-> 0 <= f <= 30).
Proof.
  intros Hts H.
  destruct (display_inv self now evs Hts H) as (pct & eta & f & _ & _ & Hf & ->).
  exists f, pct, eta. split; [exact Hf|]. split; [reflexivity|].
  rewrite len_bar. unfold bar_length. split; [lia|]. split; lia.
Qed.

(** X6: with [0 < total_steps < 2^48] and steps between 0 and
    [total_steps], a larger step never shows fewer filled glyphs, the bar is
    full only when [current_step = total_steps], and it shows no filled
    glyph exactly while [30 * current_step < total_steps]. *)
Theorem filled_grows_with_step (self : ProgressTracker) (c1 c2 : Z) :
  0 < total_steps self < 2 ^ 48 ->
  0 <= c1 <= c2 -> c2 <= total_steps self ->
  exists f1 f2,
    filled (set_current_step self c1) = Ok f1 /\
    filled (set_current_step self c2) = Ok f2 /\
    f1 <= f2 /\
    (f2 = 30 <-> c2 = total_steps self) /\
    (f1 = 0 <-> 30 * c1 < total_steps self).
Proof.
  intros Hts Hc Hc2.
  exists (30 * c1 / total_steps self), (30 * c2 / total_steps self).
  split; [apply (filled_floor (set_current_step self c1)); cbn; lia|].
  split; [apply (filled_floor (set_current_step self c2)); cbn; lia|].
  split; [apply Z.div_le_mono; lia|].
  split; split; intros H.
  - pose proof (Z.mul_div_le (30 * c2) (total_steps self) ltac:(lia)) as P.
    rewrite H in P. lia.
  - rewrite H. apply Z.div_mul. lia.
  - apply Z.div_small_iff in H; lia.
  - apply Z.div_small. lia.
Qed.

(** ** Instances *)

(** X1 at a tracker that has done 4 of 4 steps. *)
Lemma complete_render_is_full_witness :
  total_steps (tracker_at 4 4) <> 0 /\
  current_step (tracker_at 4 4) = total_steps (tracker_at 4 4) /\
  - INT_MAX_STR < total_steps (tracker_at 4 4) < DBL_OVF /\
  exists eta,
    _display (tracker_at 4 4) (seconds 1) =
    Ok [Write (CR ++ "Progress: [" ++ str_mul FILLED 30 ++ "] 100% (4/4)" ++ eta);
        Flush; Write LF].
Proof.
  assert (H1 : total_steps (tracker_at 4 4) <> 0) by discriminate.
  assert (H2 : current_step (tracker_at 4 4) = total_steps (tracker_at 4 4))
    by reflexivity.
  assert (H3 : - INT_MAX_STR < total_steps (tracker_at 4 4) < DBL_OVF)
    by (split; vm_compute; reflexivity).
  split; [exact H1|]. split; [exact H2|]. split; [exact H3|].
  exact (complete_render_is_full (tracker_at 4 4) (seconds 1) H1 H2 H3).
Defined.

(** X3 on three runs: a body that raises at once with 3 steps to do, the
    same body with [2^1024] steps to do, where the forced update raises, and
    a body that completes the only step. *)
Lemma track_progress_keeps_exit_and_output_witness :
  (exists line,
     track_progress 3 "Progress" (seconds 0) (failing_body "boom") (seconds 1) =
       (tracker_at 3 3, [Write line; Flush; Write LF],
        Raise (Exception "boom"))) /\
  (snd (fst (track_progress (2 ^ 1024) "Progress" (seconds 0)
               (failing_body "boom") (seconds 1))) = [] /\
   snd (track_progress (2 ^ 1024) "Progress" (seconds 0)
          (failing_body "boom") (seconds 1)) = Raise OverflowError) /\
  track_progress 1 "Progress" (seconds 0) (updating_body (seconds 1)) (seconds 2) =
    (tracker_at 1 1,
     [Write (CR ++ "Progress: [" ++ bar 30 ++ "] 100% (1/1) | ETA: 0.0min"); Flush;
      Write LF],
     Ok tt).
Proof.
  split; [|split].
  - assert (H1 : failing_body "boom" (__init__ 3 "Progress" (seconds 0)) =
                 (tracker_at 3 0, [], Raise (Exception "boom"))) by reflexivity.
    assert (H2 : current_step (tracker_at 3 0) < total_steps (tracker_at 3 0))
      by reflexivity.
    destruct (track_progress_keeps_exit_and_output 3 "Progress" (seconds 0)
                (seconds 1) (failing_body "boom") _ _ _ H1)
      as (_ & Hret & _ & _ & Hraises).
    assert (H3 : exists line,
               snd (update (tracker_at 3 0) (Some (total_steps (tracker_at 3 0)))
                      (seconds 1)) = Ok [Write line; Flush; Write LF])
      by (eexists; vm_compute; reflexivity).
    destruct H3 as [line H3]. destruct (Hret H2 _ H3) as [Hout Hexit].
    exists line.
    destruct (track_progress 3 "Progress" (seconds 0) (failing_body "boom")
                (seconds 1)) as [[final written] exit] eqn:E.
    cbn [fst snd] in Hout, Hexit. rewrite Hout, Hexit.
    assert (Hfinal : final = tracker_at 3 3).
    { change final with (fst (fst (final, written, exit))). rewrite <- E.
      reflexivity. }
    rewrite Hfinal. reflexivity.
  - assert (H1 : failing_body "boom" (__init__ (2 ^ 1024) "Progress" (seconds 0)) =
                 (tracker_at (2 ^ 1024) 0, [], Raise (Exception "boom")))
      by reflexivity.
    assert (H2 : current_step (tracker_at (2 ^ 1024) 0)
                 < total_steps (tracker_at (2 ^ 1024) 0)) by reflexivity.
    destruct (track_progress_keeps_exit_and_output (2 ^ 1024) "Progress"
                (seconds 0) (seconds 1) (failing_body "boom") _ _ _ H1)
      as (_ & _ & Hraise & _ & _).
    assert (H3 : snd (update (tracker_at (2 ^ 1024) 0)
                        (Some (total_steps (tracker_at (2 ^ 1024) 0)))
                        (seconds 1)) = Raise OverflowError)
      by (vm_compute; reflexivity).
    exact (Hraise H2 _ H3).
  - assert (H1 : updating_body (seconds 1) (__init__ 1 "Progress" (seconds 0)) =
      (tracker_at 1 1,
       [Write (CR ++ "Progress: [" ++ bar 30 ++ "] 100% (1/1) | ETA: 0.0min"); Flush;
        Write LF],
       Ok tt)) by (vm_compute; reflexivity).
    assert (H2 : total_steps (tracker_at 1 1) <= current_step (tracker_at 1 1))
      by discriminate.
    destruct (track_progress_keeps_exit_and_output 1 "Progress" (seconds 0)
                (seconds 2) (updating_body (seconds 1)) _ _ _ H1)
      as (Hdone & _).
    exact (Hdone H2).
Defined.

(** X4 with 4 steps announced and a loop that makes 2 calls. *)
Lemma track_progress_loop_one_newline_witness :
  0 < 4 < 2 ^ 1000 /\
  Z.of_nat (List.length [seconds 1; seconds 2]) <= 4 /\
  exists pre,
    track_progress 4 "Progress" (seconds 0)
      (loop_body [seconds 1; seconds 2]) (seconds 3) =
      (set_current_step (__init__ 4 "Progress" (seconds 0)) 4,
       (pre ++ [Write LF])%list, Ok tt) /\
    count_newlines pre = 0%nat.
Proof.
  assert (H1 : 0 < 4 < 2 ^ 1000) by (split; reflexivity).
  assert (H2 : Z.of_nat (List.length [seconds 1; seconds 2]) <= 4) by discriminate.
  split; [exact H1|]. split; [exact H2|].
  exact (track_progress_loop_one_newline 4 "Progress" (seconds 0) (seconds 3)
           [seconds 1; seconds 2] H1 H2).
Defined.

(** X5 at 20 of 10 steps: a bar of 60 glyphs. *)
Lemma render_bar_at_least_30_witness :
  total_steps (tracker_at 10 20) <> 0 /\
  _display (tracker_at 10 20) (seconds 1) =
    Ok [Write (CR ++ "Progress: [" ++ bar 60 ++ "] 200% (20/10) | ETA: -0.0min");
        Flush; Write LF] /\
  exists f, filled (tracker_at 10 20) = Ok f /\ (30 <= len (bar f))%nat.
Proof.
  assert (H1 : total_steps (tracker_at 10 20) <> 0) by discriminate.
  assert (H2 : _display (tracker_at 10 20) (seconds 1) =
    Ok [Write (CR ++ "Progress: [" ++ bar 60 ++ "] 200% (20/10) | ETA: -0.0min");
        Flush; Write LF]) by (vm_compute; reflexivity).
  split; [exact H1|]. split; [exact H2|].
  destruct (render_bar_at_least_30 (tracker_at 10 20) (seconds 1) _ H1 H2)
    as (f & _ & _ & Hf & _ & Hlen & _).
  exists f. split; [exact Hf | exact Hlen].
Defined.

(** X6 with 10 steps in all, at steps 3 and 5. *)
Lemma filled_grows_with_step_witness :
  0 < total_steps (tracker_at 10 0) < 2 ^ 48 /\
  0 <= 3 <= 5 /\
  5 <= total_steps (tracker_at 10 0) /\
  exists f1 f2,
    filled (set_current_step (tracker_at 10 0) 3) = Ok f1 /\
    filled (set_current_step (tracker_at 10 0) 5) = Ok f2 /\
    f1 <= f2 /\
    (f2 = 30 <-> 5 = total_steps (tracker_at 10 0)) /\
    (f1 = 0 <-> 30 * 3 < total_steps (tracker_at 10 0)).
Proof.
  assert (H1 : 0 < total_steps (tracker_at 10 0) < 2 ^ 48) by (split; reflexivity).
  assert (H2 : 0 <= 3 <= 5) by (split; discriminate).
  assert (H3 : 5 <= total_steps (tracker_at 10 0)) by discriminate.
  split; [exact H1|]. split; [exact H2|]. split; [exact H3|].
  exact (filled_grows_with_step (tracker_at 10 0) 3 5 H1 H2 H3).
Defined.

(** * create_pre_optimization_summary *)

Section SummaryProperties.

Context {Model PromptData Example Summary : Type}.
Variable imports : Imports Summary.

Lemma format_int_cases (z : Z) :
  format_int z = Ok (str_of_int z) \/ format_int z = Raise ValueError.
Proof. unfold format_int. destruct (_ <=? _); auto. Qed.

(** When every f-string of the plan is evaluated, what is printed is
    [plan]. *)
Lemma print_all_plan (strategy : Strategy Model PromptData Example)
    (estimate baseline_time : option float) (events : list log_event) (u : unit) :
  print_all (plan_texts imports strategy estimate baseline_time) = (events, Ok u) ->
  events = plan imports strategy estimate baseline_time.
Proof.
  unfold plan_texts, plan, plan_head_texts, time_texts, time_lines,
    baseline_text, baseline_line.
  destruct estimate as [minutes|]; [destruct (float_truthy minutes)|];
    (destruct baseline_time as [elapsed|]; [destruct (float_truthy elapsed)|]);
    repeat match goal with
    | |- context [format_int ?z] =>
        destruct (format_int_cases z) as [-> | ->]
    end;
    cbn [List.app app print_all bind]; intros H; try discriminate;
    injection H as <-; reflexivity.
Qed.

(** What the function returns when it returns. *)
Lemma create_ok_inv (strategy : Strategy Model PromptData Example)
    (prompt_data : PromptData) (clock : float * float)
    (events : list log_event) (summary : Summary) :
  create_pre_optimization_summary imports strategy prompt_data clock
    = (events, Ok summary) ->
  exists task_model_name proposer_model_name estimate,
    model_names strategy = Ok (task_model_name, proposer_model_name) /\
    estimated_time_minutes imports strategy
      (snd (fst (baseline imports strategy prompt_data clock))) = Ok estimate /\
    events = (snd (baseline imports strategy prompt_data clock)
                ++ plan imports strategy estimate
                     (snd (fst (baseline imports strategy prompt_data clock))))%list /\
    summary = PreOptimizationSummary imports task_model_name proposer_model_name
                (metric_name strategy) (train_size strategy) (val_size strategy)
                (mipro_params imports strategy) (guidance strategy)
                (fst (fst (baseline imports strategy prompt_data clock))).
Proof.
  unfold create_pre_optimization_summary.
  destruct (baseline imports strategy prompt_data clock) as [[score elapsed] warnings].
  cbn [fst snd].
  destruct (model_names strategy) as [[tn pn] | e]; [|discriminate].
  destruct (estimated_time_minutes imports strategy elapsed) as [estimate | e];
    [|discriminate].
  destruct (print_all (plan_texts imports strategy estimate elapsed))
    as [printed [u | e]] eqn:Eprint; [|discriminate].
  apply print_all_plan in Eprint. subst printed.
  intros H. injection H as <- <-. eauto 10.
Qed.

Lemma resolved_num_trials_estimate (strategy : Strategy Model PromptData Example) :
  getattr (num_trials strategy) None = None ->
  let mode := map_auto_mode_to_dspy imports (auto_mode strategy) in
  let n := resolved_num_trials imports strategy in
  (n = 7 \/ n = 12 \/ n = 20) /\
  (n = 12 <-> mode = "medium") /\
  (n = 20 <-> mode = "heavy").
Proof.
  intros Hnone mode n. unfold n, resolved_num_trials. rewrite Hnone. fold mode.
  unfold trial_estimates. cbn [dict_get].
  destruct (String.eqb_spec "light" mode) as [<- | Hl].
  { cbn. repeat split; try (intros; discriminate); auto. }
  destruct (String.eqb_spec "medium" mode) as [<- | Hm].
  { cbn. repeat split; try (intros; discriminate); auto. }
  destruct (String.eqb_spec "heavy" mode) as [<- | Hh].
  { cbn. repeat split; try (intros; discriminate); auto. }
  cbn. repeat split; try (intros; discriminate); try (intros; congruence); auto.
Qed.

(** X7: when the strategy has no [num_trials], or has it set to [None], the
    number of trials in the returned summary and in the plan is the
    estimate 7, 12 or 20: 12 exactly for the mode mapped to "medium", 20
    exactly for "heavy", 7 for "light" and for every other mode. *)
Theorem num_trials_is_estimated_when_unset
    (strategy : Strategy Model PromptData Example)
    (prompt_data : PromptData) (clock : float * float)
    (events : list log_event) (summary : Summary) :
  getattr (num_trials strategy) None = None ->
  create_pre_optimization_summary imports strategy prompt_data clock
    = (events, Ok summary) ->
  let mode := map_auto_mode_to_dspy imports (auto_mode strategy) in
  exists n task_model_name proposer_model_name score params,
    (n = 7 \/ n = 12 \/ n = 20) /\
    (n = 12 <-> mode = "medium") /\
    (n = 20 <-> mode = "heavy") /\
    summary = PreOptimizationSummary imports task_model_name proposer_model_name
                (metric_name strategy) (train_size strategy) (val_size strategy)
                params (guidance strategy) score /\
    dict_get params "num_trials" = Some (PInt n) /\
    In (Print ("Total evaluations: " ++ str_of_int (n * val_size strategy) ++ " ("
                 ++ str_of_int n ++ " trials × "
                 ++ str_of_int (val_size strategy) ++ " examples)")) events.
Proof.
  intros Hnone Hcreate mode.
  destruct (create_ok_inv strategy prompt_data clock events summary Hcreate)
    as (tn & pn & estimate & _ & _ & -> & ->).
  destruct (resolved_num_trials_estimate strategy Hnone) as (H1 & H2 & H3).
  exists (resolved_num_trials imports strategy), tn, pn,
    (fst (fst (baseline imports strategy prompt_data clock))),
    (mipro_params imports strategy).
  split; [exact H1|]. split; [exact H2|]. split; [exact H3|].
  split; [reflexivity|]. split; [reflexivity|].
  apply in_or_app. right. unfold plan, total_evaluations.
  apply in_or_app. left. cbn. auto 10.
Qed.


(** X8: a baseline computation that raises is swallowed.  The function then
    behaves as for the same strategy with [compute_baseline] off, except
    that it logs one warning first. *)
Theorem baseline_failure_is_swallowed
    (strategy : Strategy Model PromptData Example)
    (prompt_data : PromptData) (clock : float * float)
    (compute : PromptData -> result float) (e : exn) :
  getattr (compute_baseline strategy) false = true ->
  _compute_baseline_score strategy = Some compute ->
  compute prompt_data = Raise e ->
  create_pre_optimization_summary imports strategy prompt_data clock =
  (Warning ("Failed to compute baseline score: " ++ str_of_exn imports e)
     :: fst (create_pre_optimization_summary imports
               (without_baseline strategy) prompt_data clock),
   snd (create_pre_optimization_summary imports
          (without_baseline strategy) prompt_data clock)).
Proof.
  intros Hon Hcompute Hraise.
  unfold create_pre_optimization_summary, baseline.
  rewrite Hon, Hcompute, Hraise.
  change (getattr (compute_baseline (without_baseline strategy)) false) with false.
  cbv iota.
  change (model_names (without_baseline strategy)) with (model_names strategy).
  destruct (model_names strategy) as [[tn pn] | e']; [|reflexivity].
  cbn [estimated_time_minutes].
  change (plan_texts imports (without_baseline strategy) None None)
    with (plan_texts imports strategy None None).
  destruct (print_all (plan_texts imports strategy None None)) as [printed r].
  reflexivity.
Qed.

Lemma estimated_time_minutes_ok (strategy : Strategy Model PromptData Example)
    (baseline_time : option float) :
  Z.abs (resolved_num_trials imports strategy) < 2 ^ 1000 ->
  val_size strategy < 2 ^ 1000 ->
  size_of (testset strategy) < 2 ^ 1000 ->
  exists estimate,
    estimated_time_minutes imports strategy baseline_time = Ok estimate.
Proof.
  intros Hn Hv Ht. unfold estimated_time_minutes.
  destruct baseline_time as [elapsed|]; [|eauto].
  destruct (float_truthy elapsed && (0 <? val_size strategy)) eqn:Hc; [|eauto].
  apply andb_true_iff in Hc. destruct Hc as [_ Hv0]. apply Z.ltb_lt in Hv0.
  destruct (Z.ltb_spec 0 (size_of (testset strategy))) as [Ht0 | _]; [|eauto].
  rewrite float_div_int_ok by (lia || (apply overflows_small; lia)).
  cbn [bind].
  rewrite float_mul_int_small by lia. cbn [bind].
  unfold float_add_int, int_mul_float.
  rewrite (float_of_int_seconds 10) by reflexivity. cbn [bind].
  rewrite (float_of_int_seconds (resolved_num_trials imports strategy))
    by (apply overflows_small; exact Hn).
  cbn [bind].
  rewrite float_div_int_ok by (lia || reflexivity).
  cbn [bind]. eauto.
Qed.

Lemma estimated_time_minutes_some (strategy : Strategy Model PromptData Example)
    (baseline_time : option float) (minutes : float) :
  estimated_time_minutes imports strategy baseline_time = Ok (Some minutes) ->
  exists elapsed,
    baseline_time = Some elapsed /\ float_truthy elapsed = true /\
    0 < val_size strategy /\ 0 < size_of (testset strategy).
Proof.
  unfold estimated_time_minutes.
  destruct baseline_time as [elapsed|]; [|discriminate].
  destruct (float_truthy elapsed) eqn:Ht; cbn [andb]; [|discriminate].
  destruct (Z.ltb_spec 0 (val_size strategy)); [|discriminate].
  destruct (Z.ltb_spec 0 (size_of (testset strategy))); [|discriminate].
  intros _. exists elapsed. auto.
Qed.

(** X9: the arithmetic of the time estimate returns.  With fewer than
    [2^1000] trials and examples [estimated_time_minutes] is computed
    whatever the baseline took, and it is [None], no division being made,
    when there is no baseline time or when the validation set or the test
    set is empty or missing: an empty test set is no [ZeroDivisionError]. *)
Theorem time_estimate_arithmetic_returns
    (strategy : Strategy Model PromptData Example)
    (baseline_time : option float) :
  Z.abs (resolved_num_trials imports strategy) < 2 ^ 1000 ->
  val_size strategy < 2 ^ 1000 ->
  size_of (testset strategy) < 2 ^ 1000 ->
  exists estimate,
    estimated_time_minutes imports strategy baseline_time = Ok estimate /\
    (baseline_time = None \/ val_size strategy = 0 \/
     size_of (testset strategy) = 0 -> estimate = None).
Proof.
  intros Hn Hv Ht.
  destruct (estimated_time_minutes_ok strategy baseline_time Hn Hv Ht)
    as [estimate Hest].
  exists estimate. split; [exact Hest|].
  intros Hnone. destruct estimate as [minutes|]; [exfalso | reflexivity].
  destruct (estimated_time_minutes_some strategy baseline_time minutes Hest)
    as (elapsed & Hel & _ & Hv0 & Ht0).
  destruct Hnone as [H | [H | H]]; [congruence | lia | lia].
Qed.

Lemma baseline_only_warns (strategy : Strategy Model PromptData Example)
    (prompt_data : PromptData) (clock : float * float) (line : string) :
  ~ In (Print line) (snd (baseline imports strategy prompt_data clock)).
Proof.
  unfold baseline.
  destruct (getattr (compute_baseline strategy) false); [|intros []].
  destruct (_compute_baseline_score strategy) as [compute|]; [|intros []].
  destruct (compute prompt_data); cbn; [intros [] | intros [H | []]; discriminate].
Qed.

(** X10: when a [_get_model_name] call raises, [create_and_display_summary]
    prints nothing of the plan: it logs the warning of the baseline, if
    any, then its own warning with the text of the exception, and returns
    the minimal summary. *)
Theorem failed_model_name_gives_minimal_summary
    (strategy : Strategy Model PromptData Example)
    (prompt_data : PromptData) (clock : float * float) (e : exn) :
  model_names strategy = Raise e ->
  create_and_display_summary imports strategy prompt_data clock =
    ((snd (baseline imports strategy prompt_data clock) ++
      [Warning ("Failed to create or display pre-optimization summary: "
                  ++ str_of_exn imports e)])%list,
     PreOptimizationSummary_minimal imports "Unknown" "Unknown" "Unknown" 0 0 []) /\
  forall line,
    ~ In (Print line)
        (fst (create_and_display_summary imports strategy prompt_data clock)).
Proof.
  intros Hnames.
  assert (E : create_and_display_summary imports strategy prompt_data clock =
    ((snd (baseline imports strategy prompt_data clock) ++
      [Warning ("Failed to create or display pre-optimization summary: "
                  ++ str_of_exn imports e)])%list,
     PreOptimizationSummary_minimal imports "Unknown" "Unknown" "Unknown" 0 0 [])).
  { unfold create_and_display_summary, create_pre_optimization_summary.
    destruct (baseline imports strategy prompt_data clock) as [[score elapsed] warnings].
    rewrite Hnames. reflexivity. }
  split; [exact E|].
  intros line. rewrite E. cbn [fst]. intros H.
  apply in_app_or in H. destruct H as [H | [H | []]].
  - exact (baseline_only_warns strategy prompt_data clock line H).
  - discriminate.
Qed.



End SummaryProperties.

(** ** Instances *)

(** The sample strategy: what is printed and what is returned. *)
Lemma sample_creation :
  create_pre_optimization_summary sample_imports
    (sample_strategy scoring naming) tt sample_clock
  = (sample_events, Ok sample_summary).
Proof. vm_compute. reflexivity. Qed.

(** X7 on the sample strategy, whose mode maps to "medium": 12 trials. *)
Lemma num_trials_is_estimated_when_unset_witness :
  getattr (num_trials (sample_strategy scoring naming)) None = None /\
  create_pre_optimization_summary sample_imports
    (sample_strategy scoring naming) tt sample_clock
    = (sample_events, Ok sample_summary) /\
  In (Print "Total evaluations: 36 (12 trials × 3 examples)") sample_events.
Proof.
  assert (H1 : getattr (num_trials (sample_strategy scoring naming)) None = None)
    by reflexivity.
  assert (H2 : create_pre_optimization_summary sample_imports
                 (sample_strategy scoring naming) tt sample_clock
               = (sample_events, Ok sample_summary))
    by (vm_compute; reflexivity).
  split; [exact H1|]. split; [exact H2|].
  destruct (num_trials_is_estimated_when_unset sample_imports
              (sample_strategy scoring naming) tt sample_clock
              sample_events sample_summary H1 H2)
    as (n & tn & pn & score & params & _ & H12 & _ & _ & _ & Hin).
  assert (Hn : n = 12) by (apply H12; reflexivity).
  rewrite Hn in Hin. exact Hin.
Defined.

(** X8 on the sample strategy with a baseline that raises. *)
Lemma baseline_failure_is_swallowed_witness :
  getattr (compute_baseline (sample_strategy failing_scoring naming)) false = true /\
  _compute_baseline_score (sample_strategy failing_scoring naming)
    = Some (fun _ => Raise (Exception "no test set")) /\
  create_pre_optimization_summary sample_imports
    (sample_strategy failing_scoring naming) tt sample_clock =
  (Warning ("Failed to compute baseline score: "
              ++ str_of_exn sample_imports (Exception "no test set"))
     :: fst (create_pre_optimization_summary sample_imports
               (without_baseline (sample_strategy failing_scoring naming))
               tt sample_clock),
   snd (create_pre_optimization_summary sample_imports
          (without_baseline (sample_strategy failing_scoring naming))
          tt sample_clock)).
Proof.
  split; [reflexivity|]. split; [reflexivity|].
  apply (baseline_failure_is_swallowed sample_imports
           (sample_strategy failing_scoring naming) tt sample_clock
           (fun _ => Raise (Exception "no test set")) (Exception "no test set"));
    reflexivity.
Defined.

(** X9 on the sample strategy: with the 12 seconds of its baseline the
    estimate is computed, and with no baseline time it is [None]. *)
Lemma time_estimate_arithmetic_returns_witness :
  Z.abs (resolved_num_trials sample_imports (sample_strategy scoring naming))
    < 2 ^ 1000 /\
  val_size (sample_strategy scoring naming) < 2 ^ 1000 /\
  size_of (testset (sample_strategy scoring naming)) < 2 ^ 1000 /\
  (exists estimate,
     estimated_time_minutes sample_imports (sample_strategy scoring naming)
       (Some (seconds 12)) = Ok estimate) /\
  estimated_time_minutes sample_imports (sample_strategy scoring naming) None
    = Ok None.
Proof.
  assert (H1 : Z.abs (resolved_num_trials sample_imports
                        (sample_strategy scoring naming)) < 2 ^ 1000)
    by reflexivity.
  assert (H2 : val_size (sample_strategy scoring naming) < 2 ^ 1000)
    by reflexivity.
  assert (H3 : size_of (testset (sample_strategy scoring naming)) < 2 ^ 1000)
    by reflexivity.
  split; [exact H1|]. split; [exact H2|]. split; [exact H3|]. split.
  - destruct (time_estimate_arithmetic_returns sample_imports
                (sample_strategy scoring naming) (Some (seconds 12)) H1 H2 H3)
      as (estimate & Hest & _).
    exists estimate. exact Hest.
  - destruct (time_estimate_arithmetic_returns sample_imports
                (sample_strategy scoring naming) None H1 H2 H3)
      as (estimate & Hest & Hnone).
    rewrite Hest, (Hnone (or_introl eq_refl)). reflexivity.
Defined.

(** X10 on the strategy whose model-name lookup raises. *)
(** X10 on the same strategy. *)
Lemma failed_model_name_gives_minimal_summary_witness :
  model_names (sample_strategy scoring failing_naming)
    = Raise (Exception "no model") /\
  create_and_display_summary sample_imports
    (sample_strategy scoring failing_naming) tt sample_clock =
    ([Warning "Failed to create or display pre-optimization summary: no model"],
     mk_plain_summary "Unknown" "Unknown" "Unknown" 0 0 [] None None).
Proof.
  split; [reflexivity|].
  exact (proj1 (failed_model_name_gives_minimal_summary sample_imports
                  (sample_strategy scoring failing_naming) tt sample_clock
                  (Exception "no model") eq_refl)).
Defined.

